(** * Kai dashboard (app.py): aggregation, authentication and mutation

    A shallow embedding of [app.py]: the three read-side aggregators
    ([get_token_usage], [get_achievements], [get_todos]), the credential
    check [verify_auth], the persisted document ([load_data], [save_data])
    and the three mutation endpoints, followed by the properties the
    specification states about them. *)

From Stdlib Require Import ZArith NArith List Lia.
From Stdlib Require Import Strings.String Strings.Ascii.
From Stdlib Require Import Floats.PrimFloat.
From stdpp Require Import base decidable option list sorting.

Local Open Scope N_scope.

(** ** Python text

    A Python [str] is a sequence of Unicode code points.  Literals of the
    source that are plain ASCII are written [lit "..."]; the check mark of
    the source is the single code point U+2713. *)

Definition char := N.
Definition str := list char.

Definition lit (s : string) : str := map N_of_ascii (list_ascii_of_string s).

Definition CHECK_MARK : char := 0x2713.

(** [str.isspace] for one code point: the white space that [str.strip()]
    removes. *)
Definition isspace (c : char) : bool :=
  ((0x09 <=? c) && (c <=? 0x0d)) || ((0x1c <=? c) && (c <=? 0x20))
  || (c =? 0x85) || (c =? 0xa0) || (c =? 0x1680)
  || ((0x2000 <=? c) && (c <=? 0x200a))
  || (c =? 0x2028) || (c =? 0x2029) || (c =? 0x202f) || (c =? 0x205f)
  || (c =? 0x3000).

(** [s.lstrip(chars)] and [s.rstrip(chars)] drop the longest prefix
    (suffix) made of code points that belong to [chars]; the argument is a
    set of code points, not a prefix. *)
Fixpoint lstrip_where (p : char -> bool) (s : str) : str :=
  match s with
  | [] => []
  | c :: s' => if p c then lstrip_where p s' else s
  end.

Definition rstrip_where (p : char -> bool) (s : str) : str :=
  rev (lstrip_where p (rev s)).

Definition member (chars : str) (c : char) : bool :=
  existsb (N.eqb c) chars.

Definition lstrip (chars s : str) : str := lstrip_where (member chars) s.

(** [s.strip()] without argument. *)
Definition strip (s : str) : str := rstrip_where isspace (lstrip_where isspace s).

Fixpoint startswith (s prefix : str) {struct prefix} : bool :=
  match prefix with
  | [] => true
  | p :: prefix' =>
      match s with
      | [] => false
      | c :: s' => (c =? p) && startswith s' prefix'
      end
  end.

(** [sub in s]. *)
Fixpoint contains (sub s : str) : bool :=
  startswith s sub ||
  match s with
  | [] => false
  | _ :: s' => contains sub s'
  end.

(** [s.lower()], on the basic Latin letters.  [str.lower] also rewrites
    letters outside ASCII, but none of them lowers to a letter of the word
    the source searches for, so the test ["completed" in line.lower()] is
    decided by this fold. *)
Definition lower_char (c : char) : char :=
  if (0x41 <=? c) && (c <=? 0x5a) then c + 0x20 else c.

Definition lower (s : str) : str := map lower_char s.

(** [s.split(sep)] for a separator of one code point: one more piece than
    there are separators. *)
Fixpoint split (sep : char) (s : str) : list str :=
  match s with
  | [] => [[]]
  | c :: s' =>
      if c =? sep then [] :: split sep s'
      else match split sep s' with
           | [] => [[c]]
           | piece :: pieces => (c :: piece) :: pieces
           end
  end.

Definition NEWLINE : char := 0x0a.

(** Lexicographic order on code points: the order of [str] comparison, and
    so of the paths of one directory. *)
Fixpoint str_leb (a b : str) : bool :=
  match a, b with
  | [], _ => true
  | _ :: _, [] => false
  | x :: a', y :: b' => (x <? y) || ((x =? y) && str_leb a' b')
  end.

(** [s.rfind(c)]: the index of the last occurrence, if any. *)
Fixpoint rfind (c : char) (s : str) : option nat :=
  match s with
  | [] => None
  | x :: s' =>
      match rfind c s' with
      | Some i => Some (S i)
      | None => if x =? c then Some 0%nat else None
      end
  end.

(** [PurePath.stem] of a file name. *)
Definition stem (name : str) : str :=
  match rfind 0x2e name with
  | Some i =>
      if (0 <? i)%nat && (i <? length name - 1)%nat then take i name else name
  | None => name
  end.

(** [secrets.compare_digest] on two [str]: defined on ASCII text only, a
    [TypeError] ([None]) otherwise.  Its running time is not modelled. *)
Definition is_ascii (s : str) : bool := forallb (fun c => c <? 0x80) s.

Definition compare_digest (a b : str) : option bool :=
  if is_ascii a && is_ascii b then Some (bool_decide (a = b)) else None.

(** ** Data model *)

(** A value decoded by [json.loads]: a number without fraction or
    exponent is an [int], any other number (and [NaN], [Infinity]) a
    [float], that is a binary64. *)
#[warnings="-register-all"] Inductive json :=
| JNull
| JBool (b : bool)
| JInt (z : Z)
| JFloat (x : float)
| JStr (s : str)
| JList (items : list json)
| JDict (entries : list (str * json)).

(** [d.get(key, default)] on a decoded dictionary. *)
Fixpoint dict_get (entries : list (str * json)) (key : str) (default : json) : json :=
  match entries with
  | [] => default
  | (k, v) :: rest => if bool_decide (k = key) then v else dict_get rest key default
  end.

(** [j.get(key, default)] on any decoded value: only a dictionary has the
    method, anything else raises [AttributeError] ([None]). *)
Definition json_get (j : json) (key : str) (default : json) : option json :=
  match j with
  | JDict entries => Some (dict_get entries key default)
  | _ => None
  end.

(** The token-usage dictionary [{"total": _, "today": _, "week": _}]. *)
Record usage := { total : json; today : json; week : json }.

(** A todo dictionary: [{"task": _, "done": _}], with the key ["source"]
    present or not.  Two dictionaries are equal ([==], and so [in]) when
    they have the same keys with equal values. *)
Record todo_item := { task : str; done : bool; source : option str }.

#[global] Instance todo_item_eq_dec : EqDecision todo_item.
Proof. solve_decision. Defined.

(** The document kept in [data.json], with the keys that [load_data]
    creates and that every endpoint writes back, so that [data.get(k, d)]
    always finds [k]. *)
Record document := {
  token_usage : usage;
  achievements_24h : list str;
  achievements_week : list str;
  todo : list todo_item;
  last_updated : option str
}.

(** A file under the workspace as a read sees it. *)
Inductive file :=
| Missing
| Unreadable
| Text (content : str).

(** [path.read_text()]; [None] when it raises. *)
Definition read_text (f : file) : option str :=
  match f with
  | Text content => Some content
  | _ => None
  end.

(** [stats.json]: absent, present but [read_text] or [json.loads] raises,
    or decoded. *)
Inductive stats_source :=
| StatsMissing
| StatsFault
| StatsParsed (stats : json).

(** An entry of the [memory] directory. *)
Record note := { note_name : str; note_file : file }.

Record workspace := {
  stats_file : stats_source;
  memory_dir : option (list note);
  heartbeat : file
}.

(** Naive [datetime] values are points on a line counted in microseconds;
    a [timedelta] is a difference of two, and its [days] attribute is the
    floor of that difference in days. *)
Definition datetime := Z.
Definition timedelta := Z.
Definition DAY : timedelta := 86400000000%Z.
Definition days (delta : timedelta) : Z := (delta `div` DAY)%Z.

(** ** The iteration order of a Python set

    [list(set(xs))] lists every distinct element of [xs] once, in an order
    the language does not fix. *)
Class SetOrder := {
  list_set : list str -> list str;
  list_set_NoDup : forall xs, NoDup (list_set xs);
  list_set_elem : forall xs x, x ∈ list_set xs <-> x ∈ xs
}.

(** ** Persistence *)

Definition EMPTY_DOCUMENT : document :=
  {| token_usage := {| total := JInt 0; today := JInt 0; week := JInt 0 |};
     achievements_24h := [];
     achievements_week := [];
     todo := [];
     last_updated := None |}.

(** [load_data()] over the content of [data.json], [None] when the file
    does not exist. *)
Definition load_data (data_file : option document) : document :=
  match data_file with
  | Some data => data
  | None => EMPTY_DOCUMENT
  end.

Definition set_last_updated (stamp : option str) (data : document) : document :=
  {| token_usage := token_usage data;
     achievements_24h := achievements_24h data;
     achievements_week := achievements_week data;
     todo := todo data;
     last_updated := stamp |}.

(** ** Token usage resolver *)

Definition read_stats (stats : json) : option usage :=
  match json_get stats (lit "total_tokens") (JInt 0),
        json_get stats (lit "today_tokens") (JInt 0),
        json_get stats (lit "week_tokens") (JInt 0) with
  | Some t, Some d, Some w => Some {| total := t; today := d; week := w |}
  | _, _, _ => None
  end.

Definition get_token_usage (ws : workspace) (data_file : option document) : usage :=
  let fallback := token_usage (load_data data_file) in
  match stats_file ws with
  | StatsParsed stats =>
      match read_stats stats with
      | Some u => u
      | None => fallback
      end
  | StatsFault => fallback
  | StatsMissing => fallback
  end.

(** ** Achievement aggregator *)

(** The test of line 91 on a stripped line. *)
Definition is_achievement (line : str) : bool :=
  startswith line (lit "- [x]") || startswith line [CHECK_MARK]
  || contains (lit "completed") (lower line).

(** The argument of [lstrip] on line 92. *)
Definition MARKER_CHARS : str := lit "- [x]" ++ [CHECK_MARK] ++ lit " ".

(** Line 92: [line.lstrip("- [x]✓ ").strip()]. *)
Definition extract (line : str) : str := strip (lstrip MARKER_CHARS line).

(** The two lists the loops append to. *)
Definition buckets : Type := list str * list str.

(** The body of the loop over the lines of one note (lines 90 to 97). *)
Definition scan_line (now file_date : datetime) (acc : buckets) (raw : str) : buckets :=
  let line := strip raw in
  if is_achievement line then
    let achievement := extract line in
    match achievement with
    | [] => acc
    | _ :: _ =>
        let acc1 :=
          if (days (now - file_date) <? 1)%Z then (acc.1 ++ [achievement], acc.2) else acc in
        if (days (now - file_date) <? 7)%Z then (acc1.1, acc1.2 ++ [achievement]) else acc1
    end
  else acc.

(** [memory_dir.glob("*.md")] keeps the entries whose name ends in [.md]. *)
Definition endswith (s suffix : str) : bool := startswith (rev s) (rev suffix).

Definition glob_md (entries : list note) : list note :=
  filter (fun f => endswith (note_name f) (lit ".md") = true) entries.

(** [sorted(paths, reverse=True)]: the paths of one directory, by name,
    largest first. *)
Definition name_ge (a b : note) : Prop := str_leb (note_name b) (note_name a) = true.

#[global] Instance name_ge_dec a b : Decision (name_ge a b).
Proof. unfold name_ge. apply _. Defined.

Definition sorted_reverse (paths : list note) : list note := merge_sort name_ge paths.

Section Aggregators.

(** [datetime.strptime(s, "%Y-%m-%d")]: the parsed date at midnight, or
    [None] when it raises [ValueError]. *)
Variable strptime : str -> option datetime.

Context {order : SetOrder}.

(** The body of the loop over the notes (lines 83 to 99): a note whose
    name is no date, or that cannot be read, is skipped. *)
Definition scan_note (now : datetime) (acc : buckets) (f : note) : buckets :=
  match strptime (stem (note_name f)) with
  | None => acc
  | Some file_date =>
      match read_text (note_file f) with
      | None => acc
      | Some content => fold_left (scan_line now file_date) (split NEWLINE content) acc
      end
  end.

(** Lines 75 to 99: what the notes contribute. *)
Definition scan_memory (now : datetime) (ws : workspace) : buckets :=
  match memory_dir ws with
  | None => ([], [])
  | Some entries => fold_left (scan_note now) (sorted_reverse (glob_md entries)) ([], [])
  end.

(** Lines 75 to 104: the two lists just before line 106. *)
Definition collect_achievements (now : datetime) (ws : workspace)
    (data_file : option document) : buckets :=
  let acc := scan_memory now ws in
  let data := load_data data_file in
  (acc.1 ++ achievements_24h data, acc.2 ++ achievements_week data).

Definition get_achievements (now : datetime) (ws : workspace)
    (data_file : option document) : list str * list str :=
  let acc := collect_achievements now ws data_file in
  (take 20 (list_set acc.1), take 50 (list_set acc.2)).

End Aggregators.

(** ** Todo aggregator *)

Definition HEARTBEAT : str := lit "heartbeat".

(** The body of the loop over the lines of [HEARTBEAT.md] (lines 118 to 122). *)
Definition scan_heartbeat_line (todos : list todo_item) (raw : str) : list todo_item :=
  let line := strip raw in
  if startswith line (lit "- [ ]") then
    todos ++ [{| task := strip (drop 5 line); done := false; source := Some HEARTBEAT |}]
  else if startswith line (lit "- [x]") then
    todos ++ [{| task := strip (drop 5 line); done := true; source := Some HEARTBEAT |}]
  else todos.

(** The body of the loop over the stored todos (lines 127 and 128). *)
Definition add_stored (todos : list todo_item) (item : todo_item) : list todo_item :=
  if decide (item ∈ todos) then todos else todos ++ [item].

(** Lines 111 to 122; [None] when [read_text] raises, which nothing here
    catches. *)
Definition heartbeat_todos (ws : workspace) : option (list todo_item) :=
  match heartbeat ws with
  | Missing => Some []
  | Unreadable => None
  | Text content => Some (fold_left scan_heartbeat_line (split NEWLINE content) [])
  end.

(** Lines 111 to 128: the list just before the slice of line 130. *)
Definition merge_todos (ws : workspace) (data_file : option document)
    : option (list todo_item) :=
  match heartbeat_todos ws with
  | None => None
  | Some todos => Some (fold_left add_stored (todo (load_data data_file)) todos)
  end.

Definition get_todos (ws : workspace) (data_file : option document)
    : option (list todo_item) :=
  match merge_todos ws data_file with
  | None => None
  | Some todos => Some (take 30 todos)
  end.

(** ** Authentication *)

Record HTTPBasicCredentials := { username : str; password : str }.

Record HTTPException := { status_code : Z; headers : list (str * str) }.

(** What a call may raise: an [HTTPException], or anything else. *)
Inductive exn :=
| Http (e : HTTPException)
| Uncaught.

Inductive outcome (A : Type) :=
| Return (a : A)
| Raise (e : exn).
Arguments Return {A} a.
Arguments Raise {A} e.

Definition UNAUTHORIZED : HTTPException :=
  {| status_code := 401; headers := [(lit "WWW-Authenticate", lit "Basic")] |}.

(** ** Mutations of the document *)

Definition append_24h (text : str) (data : document) : document :=
  {| token_usage := token_usage data;
     achievements_24h := achievements_24h data ++ [text];
     achievements_week := achievements_week data;
     todo := todo data;
     last_updated := last_updated data |}.

Definition append_week (text : str) (data : document) : document :=
  {| token_usage := token_usage data;
     achievements_24h := achievements_24h data;
     achievements_week := achievements_week data ++ [text];
     todo := todo data;
     last_updated := last_updated data |}.

Definition append_todo (item : todo_item) (data : document) : document :=
  {| token_usage := token_usage data;
     achievements_24h := achievements_24h data;
     achievements_week := achievements_week data;
     todo := todo data ++ [item];
     last_updated := last_updated data |}.

Definition set_token_usage (u : usage) (data : document) : document :=
  {| token_usage := u;
     achievements_24h := achievements_24h data;
     achievements_week := achievements_week data;
     todo := todo data;
     last_updated := last_updated data |}.

(** ** The HTTP surface *)

(** A request as its handler receives it, the body and the query already
    validated against the handler's signature. *)
Inductive endpoint :=
| GetDashboard
| PostAchievement (text period : str)
| PostTodo (task : str) (done : bool)
| PostTokens (total today week : Z).

Record request := { credentials : HTTPBasicCredentials; target : endpoint }.

(** The page shows the three counters, ten achievements of each list and
    fifteen todos; its markup is not modelled. *)
Record page := {
  page_tokens : usage;
  page_24h : list str;
  page_week : list str;
  page_todos : list todo_item
}.

Inductive response :=
| HtmlPage (p : page)
| StatusOk
| ErrorResponse (status : Z) (response_headers : list (str * str))
| InternalServerError.

(** The format [{value:,}] of the page accepts the numbers: integers,
    booleans (which are integers) and floats; [None], a string, a list or
    a dictionary raises. *)
Definition formattable (j : json) : bool :=
  match j with
  | JInt _ | JBool _ | JFloat _ => true
  | JNull | JStr _ | JList _ | JDict _ => false
  end.

Section Server.

(** The two secrets, from the environment or the defaults of lines 19
    and 20. *)
Variables DASHBOARD_USER DASHBOARD_PASS : str.

(** [datetime.isoformat]. *)
Variable isoformat : datetime -> str.

Variable strptime : str -> option datetime.

Context {order : SetOrder}.

Definition verify_auth (credentials : HTTPBasicCredentials) : outcome bool :=
  match compare_digest (username credentials) DASHBOARD_USER with
  | None => Raise Uncaught
  | Some false => Raise (Http UNAUTHORIZED)
  | Some true =>
      match compare_digest (password credentials) DASHBOARD_PASS with
      | None => Raise Uncaught
      | Some false => Raise (Http UNAUTHORIZED)
      | Some true => Return true
      end
  end.

(** [save_data(data)]: stamps the document and rewrites [data.json]; the
    result is the new content of the file. *)
Definition save_data (now : datetime) (data : document) : option document :=
  Some (set_last_updated (Some (isoformat now)) data).

Definition add_achievement (now : datetime) (text period : str)
    (data_file : option document) : option document :=
  let data := load_data data_file in
  let data :=
    if decide (period = lit "24h") then append_24h text data
    else append_week text data in
  save_data now data.

Definition add_todo (now : datetime) (task : str) (done : bool)
    (data_file : option document) : option document :=
  let data := load_data data_file in
  let data := append_todo {| task := task; done := done; source := None |} data in
  save_data now data.

Definition update_tokens (now : datetime) (total today week : Z)
    (data_file : option document) : option document :=
  let data := load_data data_file in
  let data :=
    set_token_usage {| total := JInt total; today := JInt today; week := JInt week |} data in
  save_data now data.

Definition dashboard (now : datetime) (ws : workspace)
    (data_file : option document) : outcome page :=
  let token_usage := get_token_usage ws data_file in
  let '(achievements_24h, achievements_week) :=
    get_achievements strptime now ws data_file in
  match get_todos ws data_file with
  | None => Raise Uncaught
  | Some todos =>
      if formattable (total token_usage) && formattable (today token_usage)
         && formattable (week token_usage)
      then Return {| page_tokens := token_usage;
                     page_24h := take 10 achievements_24h;
                     page_week := take 10 achievements_week;
                     page_todos := take 15 todos |}
      else Raise Uncaught
  end.

(** One request against the application: the response and the content of
    [data.json] afterwards.  The dependency [verify_auth] runs before the
    handler's body; an [HTTPException] becomes a response with its status
    and headers, any other exception a 500. *)
Definition serve (now : datetime) (ws : workspace) (req : request)
    (data_file : option document) : response * option document :=
  match verify_auth (credentials req) with
  | Raise (Http e) => (ErrorResponse (status_code e) (headers e), data_file)
  | Raise Uncaught => (InternalServerError, data_file)
  | Return _ =>
      match target req with
      | GetDashboard =>
          match dashboard now ws data_file with
          | Return p => (HtmlPage p, data_file)
          | Raise (Http e) => (ErrorResponse (status_code e) (headers e), data_file)
          | Raise Uncaught => (InternalServerError, data_file)
          end
      | PostAchievement text period =>
          (StatusOk, add_achievement now text period data_file)
      | PostTodo task done => (StatusOk, add_todo now task done data_file)
      | PostTokens total today week =>
          (StatusOk, update_tokens now total today week data_file)
      end
  end.

End Server.


(** The entry that a line of [HEARTBEAT.md] stands for, in the words of
    the specification: [- [ ] text] is a task not done, [- [x] text] a
    task done, both tagged with their source; any other line is no entry. *)
Definition heartbeat_entry (raw : str) : option todo_item :=
  let line := strip raw in
  if startswith line (lit "- [ ]") then
    Some {| task := strip (drop 5 line); done := false; source := Some HEARTBEAT |}
  else if startswith line (lit "- [x]") then
    Some {| task := strip (drop 5 line); done := true; source := Some HEARTBEAT |}
  else None.

(** How often a text occurs in a list. *)
Definition occurrences (x : str) (l : list str) : nat :=
  length (filter (fun y => y = x) l).

(** [x] is the extract of a marked line of the note [f], which is
    readable and dated less than [window] days before [now]. *)
Definition from_lines_of (strptime : str -> option datetime) (now : datetime)
    (f : note) (window : Z) (x : str) : Prop :=
  exists file_date content raw,
    strptime (stem (note_name f)) = Some file_date
    /\ note_file f = Text content
    /\ raw ∈ split NEWLINE content
    /\ is_achievement (strip raw) = true
    /\ x = extract (strip raw)
    /\ x <> []
    /\ (days (now - file_date) < window)%Z.

(** [x] is the extract of a marked line of a readable [.md] note of the
    memory directory whose name is a date less than [window] days before
    [now]. *)
Definition from_note (strptime : str -> option datetime) (now : datetime)
    (ws : workspace) (window : Z) (x : str) : Prop :=
  exists entries f file_date content raw,
    memory_dir ws = Some entries
    /\ f ∈ entries
    /\ endswith (note_name f) (lit ".md") = true
    /\ strptime (stem (note_name f)) = Some file_date
    /\ note_file f = Text content
    /\ raw ∈ split NEWLINE content
    /\ is_achievement (strip raw) = true
    /\ x = extract (strip raw)
    /\ x <> []
    /\ (now - file_date < window * DAY)%Z.

(** ** The application over time

    The server of lines 294 to 296 answers its requests one after the
    other (no handler awaits), each at its own moment and against the
    workspace as it stands then. *)

Definition event : Type := datetime * workspace * request.

Section History.

Variables DASHBOARD_USER DASHBOARD_PASS : str.
Variable isoformat : datetime -> str.
Variable strptime : str -> option datetime.
Context {order : SetOrder}.

Fixpoint run (history : list event) (data_file : option document) : option document :=
  match history with
  | [] => data_file
  | (now, ws, req) :: rest =>
      run rest
        (serve DASHBOARD_USER DASHBOARD_PASS isoformat strptime now ws req data_file).2
  end.

(** The request passes [verify_auth]. *)
Definition authorized (e : event) : bool :=
  match verify_auth DASHBOARD_USER DASHBOARD_PASS (credentials e.2) with
  | Return _ => true
  | Raise _ => false
  end.

(** The request passes [verify_auth] and is one of the three posts. *)
Definition writes (e : event) : bool :=
  authorized e &&
  match target e.2 with
  | GetDashboard => false
  | _ => true
  end.

(** What the authorized posts of a history carry, in their order. *)
Definition posted_todos (history : list event) : list todo_item :=
  flat_map (fun e =>
    match target e.2 with
    | PostTodo task done =>
        if authorized e then [{| task := task; done := done; source := None |}] else []
    | _ => []
    end) history.

Definition posted_24h (history : list event) : list str :=
  flat_map (fun e =>
    match target e.2 with
    | PostAchievement text period =>
        if authorized e && bool_decide (period = lit "24h") then [text] else []
    | _ => []
    end) history.

Definition posted_week (history : list event) : list str :=
  flat_map (fun e =>
    match target e.2 with
    | PostAchievement text period =>
        if authorized e && negb (bool_decide (period = lit "24h")) then [text] else []
    | _ => []
    end) history.

(** The triples that the authorized token updates of a history carry. *)
Definition posted_tokens (history : list event) : list usage :=
  flat_map (fun e =>
    match target e.2 with
    | PostTokens total today week =>
        if authorized e
        then [{| total := JInt total; today := JInt today; week := JInt week |}]
        else []
    | _ => []
    end) history.

End History.

(** ** Instances of the library parameters, to run the model *)

(** A set that lists its elements in the order of their last insertion. *)
#[global] Instance last_seen_order : SetOrder :=
  {| list_set := remove_dups;
     list_set_NoDup := NoDup_remove_dups;
     list_set_elem := fun xs x => elem_of_remove_dups xs x |}.

(** The same set listed backwards: another admissible order. *)
Definition reversed_order : SetOrder.
Proof.
  refine {| list_set := fun xs => reverse (remove_dups xs) |}.
  - intros xs. rewrite reverse_Permutation. apply NoDup_remove_dups.
  - intros xs x. rewrite elem_of_reverse. apply elem_of_remove_dups.
Defined.

Module Calendar.

Local Open Scope Z_scope.

Definition digit (c : char) : option Z :=
  if ((0x30 <=? c) && (c <=? 0x39))%N then Some (Z.of_N c - 48) else None.

Fixpoint number (acc : Z) (s : str) : option Z :=
  match s with
  | [] => Some acc
  | c :: s' =>
      match digit c with
      | Some d => number (10 * acc + d) s'
      | None => None
      end
  end.

Definition is_leap (y : Z) : bool :=
  ((y mod 4 =? 0) && negb (y mod 100 =? 0)) || (y mod 400 =? 0).

Definition days_in_month (y m : Z) : Z :=
  if m =? 2 then (if is_leap y then 29 else 28)
  else if (m =? 4) || (m =? 6) || (m =? 9) || (m =? 11) then 30 else 31.

(** Days from 1970-01-01 to the given civil date. *)
Definition days_from_civil (y m d : Z) : Z :=
  let y' := if m <=? 2 then y - 1 else y in
  let era := y' / 400 in
  let yoe := y' - era * 400 in
  let doy := (153 * (if 2 <? m then m - 3 else m + 9) + 2) / 5 + d - 1 in
  let doe := yoe * 365 + yoe / 4 - yoe / 100 + doy in
  era * 146097 + doe - 719468.

(** [strptime] on the zero-padded names [YYYY-MM-DD] that the notes carry. *)
Definition strptime (s : str) : option datetime :=
  if decide (length s = 10%nat /\ s !! 4%nat = Some 0x2d%N /\ s !! 7%nat = Some 0x2d%N) then
    match number 0 (take 4 s), number 0 (take 2 (drop 5 s)), number 0 (drop 8 s) with
    | Some y, Some m, Some d =>
        if (1 <=? y) && (1 <=? m) && (m <=? 12) && (1 <=? d) && (d <=? days_in_month y m)
        then Some (days_from_civil y m d * DAY)
        else None
    | _, _, _ => None
    end
  else None.

(** A naive datetime from its fields. *)
Definition at_time (y m d hh mm ss : Z) : datetime :=
  days_from_civil y m d * DAY + ((hh * 60 + mm) * 60 + ss) * 1000000.

Definition decimal_digit (n : Z) : char := Z.to_N (48 + n mod 10).

Definition two_digits (n : Z) : str := [decimal_digit (n / 10); decimal_digit n].

Definition four_digits (n : Z) : str := two_digits (n / 100) ++ two_digits n.

(** The civil date of a day number. *)
Definition civil_from_days (z : Z) : Z * Z * Z :=
  let z := z + 719468 in
  let era := z / 146097 in
  let doe := z - era * 146097 in
  let yoe := (doe - doe / 1460 + doe / 36524 - doe / 146096) / 365 in
  let doy := doe - (365 * yoe + yoe / 4 - yoe / 100) in
  let mp := (5 * doy + 2) / 153 in
  let d := doy - (153 * mp + 2) / 5 + 1 in
  let m := if mp <? 10 then mp + 3 else mp - 9 in
  let y := yoe + era * 400 + (if m <=? 2 then 1 else 0) in
  (y, m, d).

(** [isoformat] of a datetime on a whole second. *)
Definition isoformat (t : datetime) : str :=
  let '(y, m, d) := civil_from_days (t / DAY) in
  let secs := (t mod DAY) / 1000000 in
  four_digits y ++ lit "-" ++ two_digits m ++ lit "-" ++ two_digits d ++ lit "T"
  ++ two_digits (secs / 3600) ++ lit ":" ++ two_digits (secs / 60 mod 60)
  ++ lit ":" ++ two_digits (secs mod 60).

End Calendar.

(** ** Sample inputs *)

Module Sample.

Definition line (s : string) : str := lit s ++ [NEWLINE].

(** Monday 2 February 2026, half past ten. *)
Definition now : datetime := Calendar.at_time 2026 2 2 10 30 5.

Definition today_note : note :=
  {| note_name := lit "2026-02-02.md";
     note_file := Text (line "# Monday" ++ line "- [x] shipped feature"
                        ++ line "- [x] xerox copies") |}.

Definition old_note : note :=
  {| note_name := lit "2026-01-20.md";
     note_file := Text (line "- [x] wrote the plan") |}.

Definition ws_notes : workspace :=
  {| stats_file := StatsMissing;
     memory_dir := Some [old_note; today_note];
     heartbeat := Missing |}.

Definition ws_empty : workspace :=
  {| stats_file := StatsMissing; memory_dir := None; heartbeat := Missing |}.

(** The document after one post to the week list, and after one token
    update, both on a fresh installation. *)
Definition week_only : option document :=
  add_achievement Calendar.isoformat now (lit "wrote the plan") (lit "week") None.

Definition counted : option document :=
  update_tokens Calendar.isoformat now 5 1 2 None.

(** A stats file holding the JSON text [[]]. *)
Definition ws_stats_list : workspace :=
  {| stats_file := StatsParsed (JList []); memory_dir := None; heartbeat := Missing |}.

(** The stats file of the specification's example. *)
Definition ws_stats : workspace :=
  {| stats_file :=
       StatsParsed (JDict [(lit "total_tokens", JInt 100); (lit "today_tokens", JInt 10);
                           (lit "week_tokens", JInt 50)]);
     memory_dir := None;
     heartbeat := Missing |}.

(** Twenty achievements posted to the 24-hour list, then one more text
    posted twice. *)
Definition twenty : list str :=
  map lit ["a01"; "a02"; "a03"; "a04"; "a05"; "a06"; "a07"; "a08"; "a09"; "a10";
           "a11"; "a12"; "a13"; "a14"; "a15"; "a16"; "a17"; "a18"; "a19"; "a20"]%string.

Definition post_24h (data_file : option document) (text : str) : option document :=
  add_achievement Calendar.isoformat now text (lit "24h") data_file.

Definition crowded : option document :=
  fold_left post_24h (twenty ++ [lit "shipped feature"; lit "shipped feature"]) None.

(** The text of a note of today, also posted twice. *)
Definition posted_twice : option document :=
  fold_left post_24h [lit "shipped feature"; lit "shipped feature"] None.

(** A short checklist, and one of thirty open items. *)
Definition ws_heartbeat : workspace :=
  {| stats_file := StatsMissing;
     memory_dir := None;
     heartbeat := Text (line "# Heartbeat" ++ line "- [ ] buy milk"
                        ++ line "  - [x] pay rent") |}.

Definition ws_busy : workspace :=
  {| stats_file := StatsMissing;
     memory_dir := None;
     heartbeat := Text (concat (replicate 30 (line "- [ ] water the plants"))) |}.

(** The document after posting [{task: "buy milk", done: false}]. *)
Definition milk : option document :=
  add_todo Calendar.isoformat now (lit "buy milk") false None.

(** The default secrets of lines 19 and 20, and a configured password
    with a letter outside ASCII. *)
Definition DEFAULT_USER : str := lit "kai".
Definition DEFAULT_PASS : str := lit "ablent2026".
Definition UMLAUT_PASS : str := lit "p" ++ [0xe4%N] ++ lit "ssword".

Definition owner : HTTPBasicCredentials :=
  {| username := lit "kai"; password := lit "ablent2026" |}.

Definition intruder : HTTPBasicCredentials :=
  {| username := lit "kai"; password := lit "guess" |}.

(** Three requests in a row: a post by the owner, a post with a wrong
    password, and the page. *)
Definition history : list event :=
  [ (now, ws_empty,
     {| credentials := owner; target := PostTodo (lit "buy milk") false |});
    (now, ws_empty,
     {| credentials := intruder; target := PostTodo (lit "sell milk") true |});
    (now, ws_notes, {| credentials := owner; target := GetDashboard |}) ].

(** A stats file with fractional counters, and one with a counter that
    is a string. *)
Definition ws_stats_float : workspace :=
  {| stats_file :=
       StatsParsed (JDict [(lit "total_tokens", JFloat 1000000%float);
                           (lit "today_tokens", JFloat 1.5%float)]);
     memory_dir := None;
     heartbeat := Missing |}.

Definition ws_stats_text : workspace :=
  {| stats_file := StatsParsed (JDict [(lit "total_tokens", JStr (lit "many"))]);
     memory_dir := None;
     heartbeat := Missing |}.

End Sample.

(** * Properties *)

(** ** Text *)

Example strip_sample : strip (lit "  - [x] done  ") = lit "- [x] done".
Proof. reflexivity. Qed.

Example split_sample :
  split NEWLINE (lit "a" ++ [NEWLINE] ++ lit "b" ++ [NEWLINE]) = [lit "a"; lit "b"; []].
Proof. reflexivity. Qed.

Example stem_sample :
  stem (lit "2026-02-02.md") = lit "2026-02-02"
  /\ stem (lit ".md") = lit ".md" /\ stem (lit "a.b.md") = lit "a.b".
Proof. repeat split; reflexivity. Qed.

Example strptime_sample :
  Calendar.strptime (lit "2026-02-02") = Some (Calendar.at_time 2026 2 2 0 0 0)
  /\ Calendar.strptime (lit "2026-02-30") = None
  /\ Calendar.strptime (lit "notes") = None.
Proof. repeat split; reflexivity. Qed.

Example isoformat_sample :
  Calendar.isoformat (Calendar.at_time 2026 2 2 10 30 5) = lit "2026-02-02T10:30:05".
Proof. reflexivity. Qed.

(** ** The loops of the achievement aggregator *)

Section ScanFacts.

Variables now file_date : datetime.

(** One line adds at most its own extract, at the end of each list. *)
Lemma scan_line_cases acc raw :
  scan_line now file_date acc raw =
    if is_achievement (strip raw) && negb (bool_decide (extract (strip raw) = [])) then
      (acc.1 ++ (if (days (now - file_date) <? 1)%Z then [extract (strip raw)] else []),
       acc.2 ++ (if (days (now - file_date) <? 7)%Z then [extract (strip raw)] else []))
    else acc.
Proof.
  unfold scan_line. destruct acc as [a w]; simpl.
  destruct (is_achievement (strip raw)); simpl; [|done].
  destruct (extract (strip raw)) as [|c s] eqn:E; simpl; [done|].
  destruct (days (now - file_date) <? 1)%Z, (days (now - file_date) <? 7)%Z;
    simpl; by rewrite ?app_nil_r.
Qed.

Lemma scan_line_keeps acc raw x :
  (x ∈ acc.1 -> x ∈ (scan_line now file_date acc raw).1)
  /\ (x ∈ acc.2 -> x ∈ (scan_line now file_date acc raw).2).
Proof.
  rewrite scan_line_cases.
  destruct (_ && _); simpl; [|done].
  split; intros Hx; apply elem_of_app; by left.
Qed.

Lemma scan_lines_keep lines : forall acc x,
  (x ∈ acc.1 -> x ∈ (fold_left (scan_line now file_date) lines acc).1)
  /\ (x ∈ acc.2 -> x ∈ (fold_left (scan_line now file_date) lines acc).2).
Proof.
  induction lines as [|raw lines IH]; intros acc x; simpl; [done|].
  destruct (IH (scan_line now file_date acc raw) x) as [IH1 IH2].
  destruct (scan_line_keeps acc raw x) as [K1 K2].
  split; auto.
Qed.

(** A marked line with a non-empty extract lands in the list whose window
    holds the date of its note. *)
Lemma scan_lines_add lines : forall acc raw,
  raw ∈ lines ->
  is_achievement (strip raw) = true ->
  extract (strip raw) <> [] ->
  ((days (now - file_date) < 1)%Z ->
     extract (strip raw) ∈ (fold_left (scan_line now file_date) lines acc).1)
  /\ ((days (now - file_date) < 7)%Z ->
     extract (strip raw) ∈ (fold_left (scan_line now file_date) lines acc).2).
Proof.
  induction lines as [|l lines IH]; intros acc raw Hin Hm He; [by inversion Hin|].
  simpl. apply elem_of_cons in Hin as [->|Hin]; [|by apply IH].
  pose proof (scan_lines_keep lines (scan_line now file_date acc l)
                (extract (strip l))) as [K1 K2].
  split; intros Hd.
  - apply K1. rewrite scan_line_cases, Hm. rewrite bool_decide_eq_false_2 by done.
    simpl. apply Z.ltb_lt in Hd. rewrite Hd. apply elem_of_app. right. by left.
  - apply K2. rewrite scan_line_cases, Hm. rewrite bool_decide_eq_false_2 by done.
    simpl. apply Z.ltb_lt in Hd. rewrite Hd. apply elem_of_app. right. by left.
Qed.

(** Outside both windows the lines of a note change nothing. *)
Lemma scan_lines_stale lines : forall acc,
  (7 <= days (now - file_date))%Z ->
  fold_left (scan_line now file_date) lines acc = acc.
Proof.
  induction lines as [|l lines IH]; intros acc Hd; simpl; [done|].
  rewrite scan_line_cases.
  assert ((days (now - file_date) <? 1)%Z = false) as -> by (apply Z.ltb_ge; lia).
  assert ((days (now - file_date) <? 7)%Z = false) as -> by (apply Z.ltb_ge; lia).
  rewrite !app_nil_r.
  assert ((acc.1, acc.2) = acc) as -> by by destruct acc.
  destruct (_ && _); by apply IH.
Qed.

End ScanFacts.

(** [timedelta.days] against whole days. *)
Lemma days_lt (delta : timedelta) (n : Z) : (days delta < n)%Z <-> (delta < n * DAY)%Z.
Proof.
  unfold days, DAY. split; intros H.
  - apply Z.nle_gt. intros Hle. apply Z.nle_gt in H. apply H.
    apply Z.div_le_lower_bound; lia.
  - apply Z.div_lt_upper_bound; lia.
Qed.

Lemma days_ge (delta : timedelta) (n : Z) : (n <= days delta)%Z <-> (n * DAY <= delta)%Z.
Proof. pose proof (days_lt delta n). lia. Qed.

Section NoteFacts.

Variable strptime : str -> option datetime.
Variable now : datetime.

Lemma scan_note_keeps acc f x :
  (x ∈ acc.1 -> x ∈ (scan_note strptime now acc f).1)
  /\ (x ∈ acc.2 -> x ∈ (scan_note strptime now acc f).2).
Proof.
  unfold scan_note.
  destruct (strptime _) as [file_date|]; [|done].
  destruct (read_text _) as [content|]; [|done].
  apply scan_lines_keep.
Qed.

Lemma scan_notes_keep notes : forall acc x,
  (x ∈ acc.1 -> x ∈ (fold_left (scan_note strptime now) notes acc).1)
  /\ (x ∈ acc.2 -> x ∈ (fold_left (scan_note strptime now) notes acc).2).
Proof.
  induction notes as [|f notes IH]; intros acc x; simpl; [done|].
  destruct (IH (scan_note strptime now acc f) x) as [IH1 IH2].
  destruct (scan_note_keeps acc f x) as [K1 K2].
  split; auto.
Qed.

(** What one note adds survives the notes scanned after it. *)
Lemma scan_notes_add notes : forall acc f x,
  f ∈ notes ->
  (forall acc0, x ∈ (scan_note strptime now acc0 f).1) ->
  x ∈ (fold_left (scan_note strptime now) notes acc).1.
Proof.
  induction notes as [|g notes IH]; intros acc f x Hin Hadd; [by inversion Hin|].
  simpl. apply elem_of_cons in Hin as [->|Hin]; [|by eapply IH].
  apply scan_notes_keep, Hadd.
Qed.

Lemma scan_notes_add_week notes : forall acc f x,
  f ∈ notes ->
  (forall acc0, x ∈ (scan_note strptime now acc0 f).2) ->
  x ∈ (fold_left (scan_note strptime now) notes acc).2.
Proof.
  induction notes as [|g notes IH]; intros acc f x Hin Hadd; [by inversion Hin|].
  simpl. apply elem_of_cons in Hin as [->|Hin]; [|by eapply IH].
  apply scan_notes_keep, Hadd.
Qed.

End NoteFacts.

(** Globbing and sorting lose no [.md] entry. *)
Lemma sorted_glob_elem entries f :
  f ∈ sorted_reverse (glob_md entries)
  <-> f ∈ entries /\ endswith (note_name f) (lit ".md") = true.
Proof.
  unfold sorted_reverse, glob_md.
  rewrite merge_sort_Permutation. by rewrite list_elem_of_filter, (comm and).
Qed.

(** The stored lists are appended whole, each to the list of its own name. *)
Lemma collect_achievements_eq strptime now ws data_file :
  collect_achievements strptime now ws data_file =
    ((scan_memory strptime now ws).1 ++ achievements_24h (load_data data_file),
     (scan_memory strptime now ws).2 ++ achievements_week (load_data data_file)).
Proof. reflexivity. Qed.

(** ** C3: the two windows *)

(** C3. A note whose name parses as a date puts the extract of each marked
    line into the 24-hour list when its date is less than one day before
    now, and into the week list when it is less than seven days before
    now, so that an item of today is in both; a note dated more than
    seven days before now adds nothing to either list. *)
Theorem note_windows strptime now ws data_file entries f file_date :
  memory_dir ws = Some entries ->
  f ∈ entries ->
  endswith (note_name f) (lit ".md") = true ->
  strptime (stem (note_name f)) = Some file_date ->
  (forall content raw,
     note_file f = Text content ->
     raw ∈ split NEWLINE content ->
     is_achievement (strip raw) = true ->
     extract (strip raw) <> [] ->
     ((now - file_date < 1 * DAY)%Z ->
        extract (strip raw) ∈ (collect_achievements strptime now ws data_file).1
        /\ extract (strip raw) ∈ (collect_achievements strptime now ws data_file).2)
     /\ ((now - file_date < 7 * DAY)%Z ->
        extract (strip raw) ∈ (collect_achievements strptime now ws data_file).2))
  /\ ((7 * DAY < now - file_date)%Z ->
     forall acc, scan_note strptime now acc f = acc).
Proof.
  intros Hdir Hf Hmd Hdate.
  assert (Hsorted : f ∈ sorted_reverse (glob_md entries))
    by by apply sorted_glob_elem.
  split.
  - intros content raw Htext Hraw Hmark Hne.
    assert (Hday : (now - file_date < 1 * DAY)%Z ->
              extract (strip raw) ∈ (scan_memory strptime now ws).1).
    { intros Hd. unfold scan_memory. rewrite Hdir.
      eapply scan_notes_add; [exact Hsorted|]. intros acc0.
      unfold scan_note. rewrite Hdate, Htext. simpl.
      apply scan_lines_add; auto. by apply days_lt. }
    assert (Hweek : (now - file_date < 7 * DAY)%Z ->
              extract (strip raw) ∈ (scan_memory strptime now ws).2).
    { intros Hd. unfold scan_memory. rewrite Hdir.
      eapply scan_notes_add_week; [exact Hsorted|]. intros acc0.
      unfold scan_note. rewrite Hdate, Htext. simpl.
      apply scan_lines_add; auto. by apply days_lt. }
    rewrite collect_achievements_eq. simpl. split.
    + intros Hd. split; apply elem_of_app; left; [by apply Hday|].
      apply Hweek. unfold DAY in *. lia.
    + intros Hd. apply elem_of_app. left. by apply Hweek.
  - intros Hd acc. unfold scan_note. rewrite Hdate.
    destruct (read_text (note_file f)) as [content|]; [|done].
    apply scan_lines_stale. apply days_ge. lia.
Qed.

Lemma note_windows_witness :
  (memory_dir Sample.ws_notes = Some [Sample.old_note; Sample.today_note]
   /\ Sample.today_note ∈ [Sample.old_note; Sample.today_note]
   /\ endswith (note_name Sample.today_note) (lit ".md") = true
   /\ Calendar.strptime (stem (note_name Sample.today_note))
       = Some (Calendar.at_time 2026 2 2 0 0 0))
  /\ lit "shipped feature"
       ∈ (collect_achievements Calendar.strptime Sample.now Sample.ws_notes None).1
  /\ lit "shipped feature"
       ∈ (collect_achievements Calendar.strptime Sample.now Sample.ws_notes None).2.
Proof.
  assert (H1 : memory_dir Sample.ws_notes = Some [Sample.old_note; Sample.today_note])
    by reflexivity.
  assert (H2 : Sample.today_note ∈ [Sample.old_note; Sample.today_note])
    by (right; left).
  assert (H3 : endswith (note_name Sample.today_note) (lit ".md") = true)
    by reflexivity.
  assert (H4 : Calendar.strptime (stem (note_name Sample.today_note))
               = Some (Calendar.at_time 2026 2 2 0 0 0)) by reflexivity.
  split; [by repeat split|].
  destruct (note_windows Calendar.strptime Sample.now Sample.ws_notes None _ _ _
              H1 H2 H3 H4) as [Hin _].
  destruct (Hin _ (lit "- [x] shipped feature") eq_refl) as [Hday _].
  - right; left.
  - reflexivity.
  - discriminate.
  - apply Hday. reflexivity.
Defined.

(** ** C1: the stored achievements *)

(** C1, as stated, fails: an achievement stored in the week list is not put
    into the 24-hour list. *)
Lemma stored_week_not_in_24h :
  lit "wrote the plan" ∈ achievements_week (load_data Sample.week_only)
  /\ (lit "wrote the plan"
        ∉ (collect_achievements Calendar.strptime Sample.now Sample.ws_empty
             Sample.week_only).1)
  /\ (lit "wrote the plan"
        ∉ (get_achievements Calendar.strptime Sample.now Sample.ws_empty
             Sample.week_only).1).
Proof.
  split; [by left|].
  split; cbv; inversion 1.
Qed.

(** C1, amended. Whatever the notes and the time, every achievement stored
    in the 24-hour list is appended to the 24-hour list and every
    achievement stored in the week list is appended to the week list: each
    list is what the notes give for it followed by the stored list of its
    own name, nothing more. A stored achievement is therefore not copied
    into the other list: a text that is not stored in the 24-hour list and
    that the notes do not give for it is not in the 24-hour list, even
    when the week list stores it, and the same holds with the two lists
    exchanged. *)
Theorem stored_achievements_appended strptime now ws data_file :
  let data := load_data data_file in
  let notes := scan_memory strptime now ws in
  let acc := collect_achievements strptime now ws data_file in
  ((forall x, x ∈ achievements_24h data -> x ∈ acc.1)
   /\ (forall x, x ∈ achievements_week data -> x ∈ acc.2))
  /\ (acc.1 = notes.1 ++ achievements_24h data
      /\ acc.2 = notes.2 ++ achievements_week data)
  /\ (forall x, x ∉ achievements_24h data -> x ∉ notes.1 -> x ∉ acc.1)
  /\ (forall x, x ∉ achievements_week data -> x ∉ notes.2 -> x ∉ acc.2).
Proof.
  intros data notes acc. unfold acc, data, notes.
  rewrite collect_achievements_eq. simpl.
  split; [split; intros x Hx; apply elem_of_app; by right|].
  split; [done|].
  split; intros x Hs Hn [?|?]%elem_of_app; done.
Qed.

Lemma stored_achievements_appended_witness :
  (lit "wrote the plan" ∈ achievements_week (load_data Sample.week_only)
   /\ (lit "wrote the plan" ∉ achievements_24h (load_data Sample.week_only))
   /\ (lit "wrote the plan"
         ∉ (scan_memory Calendar.strptime Sample.now Sample.ws_notes).1))
  /\ lit "wrote the plan"
       ∈ (collect_achievements Calendar.strptime Sample.now Sample.ws_notes
            Sample.week_only).2
  /\ (lit "wrote the plan"
        ∉ (collect_achievements Calendar.strptime Sample.now Sample.ws_notes
             Sample.week_only).1).
Proof.
  assert (H : lit "wrote the plan" ∈ achievements_week (load_data Sample.week_only))
    by left.
  assert (H24 : lit "wrote the plan" ∉ achievements_24h (load_data Sample.week_only))
    by (cbv; inversion 1).
  assert (Hn : lit "wrote the plan"
                 ∉ (scan_memory Calendar.strptime Sample.now Sample.ws_notes).1).
  { rewrite list_elem_of_In. cbv. intuition discriminate. }
  split; [by repeat split|].
  destruct (stored_achievements_appended Calendar.strptime Sample.now Sample.ws_notes
              Sample.week_only) as ((_ & Hweek) & _ & Hnot24 & _).
  split; [exact (Hweek _ H)|exact (Hnot24 _ H24 Hn)].
Defined.

(** ** C2: the token usage resolver *)

(** C2, as stated, fails: a stats file that parses as JSON but is not an
    object has no [get]; the exception is swallowed and the stored counters
    are returned, so the result follows the persisted state. *)
Lemma stats_list_falls_back :
  get_token_usage Sample.ws_stats_list Sample.counted
    = {| total := JInt 5; today := JInt 1; week := JInt 2 |}
  /\ get_token_usage Sample.ws_stats_list None
    = {| total := JInt 0; today := JInt 0; week := JInt 0 |}
  /\ get_token_usage Sample.ws_stats_list Sample.counted
    <> get_token_usage Sample.ws_stats_list None.
Proof. repeat split. discriminate. Qed.

(** C2, amended. A stats file that parses as a JSON object wins whatever is
    stored: the three counters are read from it, a missing key reading as
    0. In every other case (no stats file, a read or a parse that raises,
    a parsed value that is not an object) the stored triple is returned as
    it is. *)
Theorem token_usage_one_source ws data_file :
  match stats_file ws with
  | StatsParsed (JDict entries) =>
      get_token_usage ws data_file =
        {| total := dict_get entries (lit "total_tokens") (JInt 0);
           today := dict_get entries (lit "today_tokens") (JInt 0);
           week := dict_get entries (lit "week_tokens") (JInt 0) |}
  | _ => get_token_usage ws data_file = token_usage (load_data data_file)
  end.
Proof.
  unfold get_token_usage.
  destruct (stats_file ws) as [| |stats]; [done..|].
  by destruct stats.
Qed.

(** The two examples of the specification. *)
Example stats_file_wins data_file :
  get_token_usage Sample.ws_stats data_file
    = {| total := JInt 100; today := JInt 10; week := JInt 50 |}.
Proof. reflexivity. Qed.

Example stats_file_absent :
  get_token_usage Sample.ws_empty Sample.counted
    = {| total := JInt 5; today := JInt 1; week := JInt 2 |}.
Proof. reflexivity. Qed.

(** ** C4: the text of an achievement *)

(** C4. The marker is not what line 92 removes: [lstrip] takes its argument
    as a set of characters and goes on through the text, so an achievement
    that begins with one of them loses its first letters. The todo
    aggregator, which slices the five characters of the marker away, keeps
    the same text whole. *)
Theorem extract_eats_text :
  is_achievement (lit "- [x] xerox copies") = true
  /\ extract (lit "- [x] xerox copies") = lit "erox copies"
  /\ (collect_achievements Calendar.strptime Sample.now Sample.ws_notes None).1
     = [lit "shipped feature"; lit "erox copies"]
  /\ scan_heartbeat_line [] (lit "- [x] xerox copies")
     = [{| task := lit "xerox copies"; done := true; source := Some HEARTBEAT |}].
Proof. repeat split. Qed.

(** ** C5: deduplication and caps *)

Lemma occurrences_NoDup x l :
  NoDup l -> occurrences x l = if decide (x ∈ l) then 1%nat else 0%nat.
Proof.
  unfold occurrences. induction 1 as [|y l Hy Hl IH]; [done|].
  rewrite filter_cons. destruct (decide (y = x)) as [->|Hne]; simpl.
  - rewrite IH. rewrite (decide_False (P := x ∈ l)) by done.
    by rewrite (decide_True (P := x ∈ x :: l)) by left.
  - rewrite IH. destruct (decide (x ∈ l)) as [Hx|Hx].
    + by rewrite (decide_True (P := x ∈ y :: l)) by by right.
    + rewrite (decide_False (P := x ∈ y :: l)); [done|].
      intros [?|?]%elem_of_cons; congruence.
Qed.

(** C5, as stated, fails: a text posted twice after twenty others is cut
    off by the cap when the set lists it last, and the returned list holds
    it zero times. *)
Lemma posted_twice_cut_off :
  occurrences (lit "shipped feature")
    (achievements_24h (load_data Sample.crowded)) = 2%nat
  /\ occurrences (lit "shipped feature")
       (get_achievements (order := last_seen_order) Calendar.strptime Sample.now
          Sample.ws_empty Sample.crowded).1 = 0%nat.
Proof. split; reflexivity. Qed.

(** C5, amended. The two returned lists hold no text twice, hold only
    collected texts, and have at most 20 and at most 50 entries. A text
    collected any number of times, from a note or from the stored lists,
    occurs at most once in the returned list, and exactly once when the
    distinct texts of that list do not exceed its cap. *)
Theorem achievements_deduplicated (order : SetOrder) strptime now ws data_file :
  let acc := collect_achievements strptime now ws data_file in
  let r := get_achievements strptime now ws data_file in
  (NoDup r.1 /\ NoDup r.2)
  /\ (length r.1 <= 20 /\ length r.2 <= 50)%nat
  /\ (forall x, (x ∈ r.1 -> x ∈ acc.1) /\ (x ∈ r.2 -> x ∈ acc.2))
  /\ (forall x, (occurrences x r.1 <= 1 /\ occurrences x r.2 <= 1)%nat)
  /\ ((length (list_set acc.1) <= 20)%nat ->
        forall x, x ∈ acc.1 -> occurrences x r.1 = 1%nat)
  /\ ((length (list_set acc.2) <= 50)%nat ->
        forall x, x ∈ acc.2 -> occurrences x r.2 = 1%nat).
Proof.
  intros acc r. unfold r, get_achievements. fold acc. simpl.
  assert (N1 : NoDup (take 20 (list_set acc.1)))
    by (eapply sublist_NoDup; [apply list_set_NoDup|apply sublist_take]).
  assert (N2 : NoDup (take 50 (list_set acc.2)))
    by (eapply sublist_NoDup; [apply list_set_NoDup|apply sublist_take]).
  split; [done|]. split.
  { rewrite !length_take. lia. }
  split.
  { intros x. split; intros Hx; apply list_set_elem; eapply subseteq_take, Hx. }
  split.
  { intros x. rewrite !occurrences_NoDup by done.
    split; case_decide; lia. }
  split; intros Hlen x Hx; rewrite occurrences_NoDup by done;
    rewrite take_ge by done; rewrite decide_True; [done| |done|];
    by apply list_set_elem.
Qed.

Lemma achievements_deduplicated_witness :
  (length (list_set (collect_achievements Calendar.strptime Sample.now Sample.ws_notes
                       Sample.posted_twice).1) <= 20)%nat
  /\ lit "shipped feature"
       ∈ (collect_achievements Calendar.strptime Sample.now Sample.ws_notes
            Sample.posted_twice).1
  /\ occurrences (lit "shipped feature")
       (collect_achievements Calendar.strptime Sample.now Sample.ws_notes
          Sample.posted_twice).1 = 3%nat
  /\ occurrences (lit "shipped feature")
       (get_achievements Calendar.strptime Sample.now Sample.ws_notes
          Sample.posted_twice).1 = 1%nat.
Proof.
  assert (Hlen : (length (list_set (collect_achievements Calendar.strptime Sample.now
                    Sample.ws_notes Sample.posted_twice).1) <= 20)%nat)
    by (vm_compute; lia).
  assert (Hin : lit "shipped feature"
                 ∈ (collect_achievements Calendar.strptime Sample.now Sample.ws_notes
                      Sample.posted_twice).1) by left.
  split; [exact Hlen|]. split; [exact Hin|]. split; [reflexivity|].
  destruct (achievements_deduplicated last_seen_order Calendar.strptime Sample.now
              Sample.ws_notes Sample.posted_twice) as (_ & _ & _ & _ & Hone & _).
  exact (Hone Hlen _ Hin).
Defined.

(** ** The loops of the todo aggregator *)

Lemma scan_heartbeat_line_entry todos raw :
  scan_heartbeat_line todos raw = todos ++ option_list (heartbeat_entry raw).
Proof.
  unfold scan_heartbeat_line, heartbeat_entry.
  destruct (startswith (strip raw) (lit "- [ ]")); [done|].
  destruct (startswith (strip raw) (lit "- [x]")); [done|].
  by rewrite app_nil_r.
Qed.

Lemma scan_heartbeat_lines lines : forall todos,
  fold_left scan_heartbeat_line lines todos = todos ++ omap heartbeat_entry lines.
Proof.
  induction lines as [|raw lines IH]; intros todos; simpl.
  - by rewrite app_nil_r.
  - rewrite IH, scan_heartbeat_line_entry.
    destruct (heartbeat_entry raw); simpl; by rewrite <- ?app_assoc.
Qed.

Lemma startswith_app (p s : str) : startswith (p ++ s) p = true.
Proof. induction p as [|c p IH]; simpl; [done|]. by rewrite N.eqb_refl. Qed.

(** A line made of a marker and a text gives the entry of that text. *)
Lemma heartbeat_entry_open raw text :
  strip raw = lit "- [ ]" ++ text ->
  heartbeat_entry raw
    = Some {| task := strip text; done := false; source := Some HEARTBEAT |}.
Proof.
  intros E. unfold heartbeat_entry. rewrite E, startswith_app. done.
Qed.

Lemma heartbeat_entry_done raw text :
  strip raw = lit "- [x]" ++ text ->
  heartbeat_entry raw
    = Some {| task := strip text; done := true; source := Some HEARTBEAT |}.
Proof.
  intros E. unfold heartbeat_entry. rewrite E, startswith_app.
  destruct (startswith _ (lit "- [ ]")) eqn:Hopen; [|done].
  simpl in Hopen. discriminate.
Qed.

Lemma heartbeat_entry_source raw h :
  heartbeat_entry raw = Some h -> source h = Some HEARTBEAT.
Proof.
  unfold heartbeat_entry.
  destruct (startswith _ (lit "- [ ]")); [by intros [= <-]|].
  destruct (startswith _ (lit "- [x]")); [by intros [= <-]|done].
Qed.

Lemma heartbeat_todos_source ws todos h :
  heartbeat_todos ws = Some todos -> h ∈ todos -> source h = Some HEARTBEAT.
Proof.
  unfold heartbeat_todos. destruct (heartbeat ws) as [| |content]; [|done|].
  - intros [= <-] Hh. by inversion Hh.
  - intros [= <-]. rewrite scan_heartbeat_lines. simpl.
    intros (raw & _ & Hraw)%list_elem_of_omap. by eapply heartbeat_entry_source.
Qed.

(** The stored todos that the second loop appends: those not yet in the
    list, each once, in their stored order. *)
Lemma add_stored_fold stored : forall todos,
  exists extra,
    fold_left add_stored stored todos = todos ++ extra
    /\ extra `sublist_of` stored
    /\ NoDup extra
    /\ (forall t, t ∈ extra <-> t ∈ stored /\ t ∉ todos).
Proof.
  induction stored as [|s stored IH]; intros todos; simpl.
  - exists []. rewrite app_nil_r.
    split; [done|]. split; [constructor|]. split; [constructor|].
    intros t. split; [by inversion 1|]. intros [H _]. by inversion H.
  - unfold add_stored at 2. destruct (decide (s ∈ todos)) as [Hs|Hs].
    + destruct (IH todos) as (extra & Hfold & Hsub & Hnd & Hel).
      exists extra.
      split; [done|]. split; [by apply sublist_cons|]. split; [done|].
      intros t. rewrite Hel, elem_of_cons. split; [tauto|].
      intros [[->|Ht] Hn]; tauto.
    + destruct (IH (todos ++ [s])) as (extra & Hfold & Hsub & Hnd & Hel).
      exists (s :: extra). rewrite Hfold, <- app_assoc.
      split; [done|]. split; [by apply sublist_skip|].
      assert (Hfresh : s ∉ extra).
      { intros [_ Hn]%Hel. apply Hn, elem_of_app. right. by left. }
      split; [by constructor|].
      intros t. rewrite !elem_of_cons, Hel, elem_of_app, list_elem_of_singleton.
      destruct (decide (t = s)) as [->|Hne]; tauto.
Qed.

(** The list before the slice, as heartbeat entries followed by the new
    stored ones. *)
Lemma merge_todos_eq ws data_file hb :
  heartbeat_todos ws = Some hb ->
  exists extra,
    merge_todos ws data_file = Some (hb ++ extra)
    /\ get_todos ws data_file = Some (take 30 (hb ++ extra))
    /\ extra `sublist_of` todo (load_data data_file)
    /\ NoDup extra
    /\ (forall t, t ∈ extra <-> t ∈ todo (load_data data_file) /\ t ∉ hb).
Proof.
  intros Hhb.
  destruct (add_stored_fold (todo (load_data data_file)) hb)
    as (extra & Hfold & Hsub & Hnd & Hel).
  exists extra. unfold get_todos, merge_todos. rewrite Hhb, Hfold. done.
Qed.

(** A stored todo without a source is in the list before the slice. *)
Lemma plain_todo_merged ws data_file hb (extra : list todo_item) t :
  heartbeat_todos ws = Some hb ->
  (forall u, u ∈ extra <-> u ∈ todo (load_data data_file) /\ u ∉ hb) ->
  t ∈ todo (load_data data_file) ->
  source t = None ->
  t ∈ extra.
Proof.
  intros Hhb Hel Ht Hsrc. apply Hel. split; [done|].
  intros Hin. pose proof (heartbeat_todos_source ws hb t Hhb Hin). congruence.
Qed.

(** What [add_todo] stores. *)
Lemma add_todo_stored isoformat now task done data_file :
  todo (load_data (add_todo isoformat now task done data_file))
    = todo (load_data data_file) ++ [{| task := task; done := done; source := None |}].
Proof. reflexivity. Qed.

Lemma heartbeat_todos_text ws content :
  heartbeat ws = Text content ->
  heartbeat_todos ws = Some (omap heartbeat_entry (split NEWLINE content)).
Proof.
  intros H. unfold heartbeat_todos. rewrite H. by rewrite scan_heartbeat_lines.
Qed.

(** ** C6: the todo aggregator *)

(** C6, as stated, fails in its last part: with thirty checklist lines in
    the heartbeat file, a todo posted through the API is past the slice
    and is not in the result. *)
Lemma posted_todo_cut_off :
  {| task := lit "buy milk"; done := false; source := None |}
    ∈ todo (load_data Sample.milk)
  /\ exists todos,
       get_todos Sample.ws_busy Sample.milk = Some todos
       /\ length todos = 30%nat
       /\ {| task := lit "buy milk"; done := false; source := None |} ∉ todos.
Proof.
  split; [by left|].
  eexists. split; [vm_compute; reflexivity|]. split; [reflexivity|].
  rewrite list_elem_of_In. cbv. intuition discriminate.
Qed.

(** C6, amended. A line [- [ ] text] of the heartbeat file gives the entry
    [{task: text, done: false, source: "heartbeat"}] and a line
    [- [x] text] the same with [done: true]; the stored todos that equal no
    entry already in the list follow, each once and in their stored order;
    the result is the first 30 entries of that list. A todo stored without
    a source, as the API posts it, is in the list before the slice, and in
    the result when that list has at most 30 entries. *)
Theorem todos_merged ws data_file content :
  heartbeat ws = Text content ->
  (forall raw text,
     (strip raw = lit "- [ ]" ++ text ->
      heartbeat_entry raw
        = Some {| task := strip text; done := false; source := Some HEARTBEAT |})
     /\ (strip raw = lit "- [x]" ++ text ->
      heartbeat_entry raw
        = Some {| task := strip text; done := true; source := Some HEARTBEAT |}))
  /\ exists extra,
       let hb := omap heartbeat_entry (split NEWLINE content) in
       get_todos ws data_file = Some (take 30 (hb ++ extra))
       /\ (length (take 30 (hb ++ extra)) <= 30)%nat
       /\ extra `sublist_of` todo (load_data data_file)
       /\ NoDup extra
       /\ (forall t, t ∈ extra <-> t ∈ todo (load_data data_file) /\ t ∉ hb)
       /\ (forall t, t ∈ todo (load_data data_file) -> source t = None ->
             t ∈ hb ++ extra
             /\ ((length (hb ++ extra) <= 30)%nat -> t ∈ take 30 (hb ++ extra))).
Proof.
  intros Htext. split.
  { intros raw text. split; [apply heartbeat_entry_open|apply heartbeat_entry_done]. }
  pose proof (heartbeat_todos_text ws content Htext) as Hhb.
  destruct (merge_todos_eq ws data_file _ Hhb) as (extra & _ & Hget & Hsub & Hnd & Hel).
  exists extra. simpl.
  split; [done|]. split; [rewrite length_take; lia|].
  split; [done|]. split; [done|]. split; [done|].
  intros t Ht Hsrc.
  assert (Hin : t ∈ omap heartbeat_entry (split NEWLINE content) ++ extra).
  { apply elem_of_app. right. by eapply plain_todo_merged. }
  split; [done|]. intros Hlen. by rewrite take_ge.
Qed.

Lemma todos_merged_witness :
  heartbeat Sample.ws_heartbeat
    = Text (Sample.line "# Heartbeat" ++ Sample.line "- [ ] buy milk"
            ++ Sample.line "  - [x] pay rent")
  /\ get_todos Sample.ws_heartbeat Sample.milk
     = Some [ {| task := lit "buy milk"; done := false; source := Some HEARTBEAT |};
              {| task := lit "pay rent"; done := true; source := Some HEARTBEAT |};
              {| task := lit "buy milk"; done := false; source := None |} ]
  /\ exists todos,
       get_todos Sample.ws_heartbeat Sample.milk = Some todos
       /\ {| task := lit "buy milk"; done := false; source := None |} ∈ todos.
Proof.
  split; [reflexivity|].
  assert (Hrun : get_todos Sample.ws_heartbeat Sample.milk
            = Some [ {| task := lit "buy milk"; done := false; source := Some HEARTBEAT |};
                     {| task := lit "pay rent"; done := true; source := Some HEARTBEAT |};
                     {| task := lit "buy milk"; done := false; source := None |} ])
    by reflexivity.
  split; [exact Hrun|].
  destruct (todos_merged Sample.ws_heartbeat Sample.milk _ eq_refl)
    as (_ & extra & Hget & _ & _ & _ & _ & Hplain).
  destruct (Hplain {| task := lit "buy milk"; done := false; source := None |})
    as [_ Hres]; [by left|reflexivity|].
  eexists. split; [exact Hget|]. apply Hres.
  pose proof (eq_trans (eq_sym Hget) Hrun) as E.
  apply (f_equal (from_option length 0%nat)) in E. cbn [from_option] in E.
  rewrite length_take in E. change (length [_; _; _]) with 3%nat in E. lia.
Defined.

(** ** C10: heartbeat entries never hide a posted todo *)

(** C10. A stored todo with the keys [task] and [done] only differs from
    every entry read from the heartbeat file, which carries a source, so
    the containment test never drops it on account of such an entry: both
    are in the list before the slice, whatever their text and flag, and
    both are in the result when that list has at most 30 entries. *)
Theorem posted_todo_not_shadowed ws data_file hb h t :
  heartbeat_todos ws = Some hb ->
  h ∈ hb ->
  t ∈ todo (load_data data_file) ->
  source t = None ->
  t <> h
  /\ exists merged,
       merge_todos ws data_file = Some merged
       /\ h ∈ merged
       /\ t ∈ merged
       /\ get_todos ws data_file = Some (take 30 merged)
       /\ ((length merged <= 30)%nat -> h ∈ take 30 merged /\ t ∈ take 30 merged).
Proof.
  intros Hhb Hh Ht Hsrc.
  pose proof (heartbeat_todos_source ws hb h Hhb Hh) as Hhsrc.
  split; [congruence|].
  destruct (merge_todos_eq ws data_file hb Hhb) as (extra & Hm & Hget & _ & _ & Hel).
  exists (hb ++ extra).
  assert (Hhin : h ∈ hb ++ extra) by (apply elem_of_app; by left).
  assert (Htin : t ∈ hb ++ extra).
  { apply elem_of_app. right. by eapply plain_todo_merged. }
  repeat split; try done.
  - by rewrite take_ge.
  - by rewrite take_ge.
Qed.

Lemma posted_todo_not_shadowed_witness :
  (heartbeat_todos Sample.ws_heartbeat
     = Some [ {| task := lit "buy milk"; done := false; source := Some HEARTBEAT |};
              {| task := lit "pay rent"; done := true; source := Some HEARTBEAT |} ]
   /\ {| task := lit "buy milk"; done := false; source := None |}
        ∈ todo (load_data Sample.milk))
  /\ exists merged,
       get_todos Sample.ws_heartbeat Sample.milk = Some (take 30 merged)
       /\ {| task := lit "buy milk"; done := false; source := Some HEARTBEAT |} ∈ merged
       /\ {| task := lit "buy milk"; done := false; source := None |} ∈ merged.
Proof.
  assert (H1 : heartbeat_todos Sample.ws_heartbeat
     = Some [ {| task := lit "buy milk"; done := false; source := Some HEARTBEAT |};
              {| task := lit "pay rent"; done := true; source := Some HEARTBEAT |} ])
    by reflexivity.
  assert (H2 : {| task := lit "buy milk"; done := false; source := None |}
                 ∈ todo (load_data Sample.milk)) by left.
  split; [by split|].
  destruct (posted_todo_not_shadowed Sample.ws_heartbeat Sample.milk _
              {| task := lit "buy milk"; done := false; source := Some HEARTBEAT |}
              _ H1 ltac:(left) H2 eq_refl)
    as (_ & merged & _ & Hh & Ht & Hget & _).
  exists merged. by repeat split.
Defined.

(** ** Authentication *)

Section AuthFacts.

Variables DASHBOARD_USER DASHBOARD_PASS : str.
Variable isoformat : datetime -> str.
Variable strptime : str -> option datetime.
Context {order : SetOrder}.

(** X1. Whatever the outcome of the check (a 401 or an exception), a
    request that does not pass it leaves [data.json] as it was, on every
    endpoint. *)
Lemma rejected_request_writes_nothing now ws req data_file :
  verify_auth DASHBOARD_USER DASHBOARD_PASS (credentials req) <> Return true ->
  (serve DASHBOARD_USER DASHBOARD_PASS isoformat strptime now ws req data_file).2
    = data_file.
Proof.
  unfold serve. intros Hno.
  destruct (verify_auth _ _ _) as [b|[e|]] eqn:Hv; [|done..].
  exfalso. apply Hno. revert Hv. unfold verify_auth.
  repeat case_match; congruence.
Qed.

(** X2. With secrets configured in ASCII, credentials that do not match
    are answered 401 with the challenge header on every endpoint, and
    nothing is written. *)
Lemma wrong_credentials_rejected now ws req data_file :
  is_ascii DASHBOARD_USER = true ->
  is_ascii DASHBOARD_PASS = true ->
  is_ascii (username (credentials req)) = true ->
  is_ascii (password (credentials req)) = true ->
  username (credentials req) <> DASHBOARD_USER
  \/ password (credentials req) <> DASHBOARD_PASS ->
  serve DASHBOARD_USER DASHBOARD_PASS isoformat strptime now ws req data_file
    = (ErrorResponse 401 [(lit "WWW-Authenticate", lit "Basic")], data_file).
Proof.
  intros Hu Hp Hcu Hcp Hbad. unfold serve, verify_auth, compare_digest.
  rewrite Hu, Hp, Hcu, Hcp. simpl.
  destruct (decide (username (credentials req) = DASHBOARD_USER)) as [Eu|Nu].
  - rewrite bool_decide_eq_true_2 by done.
    rewrite bool_decide_eq_false_2 by tauto. done.
  - rewrite bool_decide_eq_false_2 by done. done.
Qed.

End AuthFacts.

(** ** C7: wrong credentials *)

(** C7. With a configured password that holds a letter outside ASCII, the
    comparison of line 29 raises instead of answering: a request with a
    wrong password gets a 500 without challenge header where the claim
    says 401; the document is left as it was. With the default secrets
    the same request is answered 401 with the header. *)
Theorem wrong_password_500 :
  verify_auth Sample.DEFAULT_USER Sample.UMLAUT_PASS Sample.intruder = Raise Uncaught
  /\ serve Sample.DEFAULT_USER Sample.UMLAUT_PASS Calendar.isoformat Calendar.strptime
       Sample.now Sample.ws_empty
       {| credentials := Sample.intruder;
          target := PostTodo (lit "buy milk") false |} Sample.milk
     = (InternalServerError, Sample.milk)
  /\ serve Sample.DEFAULT_USER Sample.DEFAULT_PASS Calendar.isoformat Calendar.strptime
       Sample.now Sample.ws_empty
       {| credentials := Sample.intruder;
          target := PostTodo (lit "buy milk") false |} Sample.milk
     = (ErrorResponse 401 [(lit "WWW-Authenticate", lit "Basic")], Sample.milk).
Proof. repeat split. Qed.

(** ** C8 and C9: the mutation endpoints *)

Lemma append_changes {A} (l : list A) (x : A) : l ++ [x] <> l.
Proof.
  intros E. apply (f_equal length) in E. rewrite length_app in E. simpl in E. lia.
Qed.

(** C8. An authenticated mutation answers [{"status": "ok"}] and rewrites
    the document with one content field changed and the stamp of the
    moment: a post of an achievement extends one of the two achievement
    lists, a post of a todo extends the todo list, an update of the
    tokens replaces the triple by the supplied values; every other content
    field keeps its prior value. *)
Theorem mutation_frame DASHBOARD_USER DASHBOARD_PASS isoformat strptime
    (order : SetOrder) now ws req data_file :
  verify_auth DASHBOARD_USER DASHBOARD_PASS (credentials req) = Return true ->
  let data := load_data data_file in
  let r := serve DASHBOARD_USER DASHBOARD_PASS isoformat strptime now ws req data_file in
  match target req with
  | GetDashboard => r.2 = data_file
  | PostAchievement text period =>
      exists data', r = (StatusOk, Some data')
        /\ last_updated data' = Some (isoformat now)
        /\ token_usage data' = token_usage data
        /\ todo data' = todo data
        /\ ((achievements_24h data' = achievements_24h data ++ [text]
             /\ achievements_24h data' <> achievements_24h data
             /\ achievements_week data' = achievements_week data)
            \/ (achievements_week data' = achievements_week data ++ [text]
                /\ achievements_week data' <> achievements_week data
                /\ achievements_24h data' = achievements_24h data))
  | PostTodo task done =>
      exists data', r = (StatusOk, Some data')
        /\ last_updated data' = Some (isoformat now)
        /\ todo data' = todo data ++ [{| task := task; done := done; source := None |}]
        /\ todo data' <> todo data
        /\ token_usage data' = token_usage data
        /\ achievements_24h data' = achievements_24h data
        /\ achievements_week data' = achievements_week data
  | PostTokens total today week =>
      exists data', r = (StatusOk, Some data')
        /\ last_updated data' = Some (isoformat now)
        /\ token_usage data'
           = {| total := JInt total; today := JInt today; week := JInt week |}
        /\ todo data' = todo data
        /\ achievements_24h data' = achievements_24h data
        /\ achievements_week data' = achievements_week data
  end.
Proof.
  intros Hauth data r. unfold r, serve. rewrite Hauth.
  destruct (target req) as [|text period|task done|total today week].
  - by destruct (dashboard _ _ _ _) as [p|[e|]].
  - unfold add_achievement, save_data. fold data. eexists. split; [reflexivity|].
    destruct (decide (period = lit "24h")); simpl; repeat split;
      [left|right]; repeat split; apply append_changes.
  - unfold add_todo, save_data. fold data. eexists. split; [reflexivity|].
    simpl. repeat split. apply append_changes.
  - unfold update_tokens, save_data. fold data. eexists. split; [reflexivity|].
    simpl. repeat split.
Qed.

Lemma mutation_frame_witness :
  verify_auth Sample.DEFAULT_USER Sample.DEFAULT_PASS Sample.owner = Return true
  /\ exists data',
       serve Sample.DEFAULT_USER Sample.DEFAULT_PASS Calendar.isoformat
         Calendar.strptime Sample.now Sample.ws_empty
         {| credentials := Sample.owner; target := PostTokens 100 10 50 |} Sample.milk
         = (StatusOk, Some data')
       /\ last_updated data' = Some (lit "2026-02-02T10:30:05")
       /\ token_usage data' = {| total := JInt 100; today := JInt 10; week := JInt 50 |}
       /\ todo data' = [{| task := lit "buy milk"; done := false; source := None |}].
Proof.
  assert (Hauth : verify_auth Sample.DEFAULT_USER Sample.DEFAULT_PASS Sample.owner
                  = Return true) by reflexivity.
  split; [exact Hauth|].
  destruct (mutation_frame Sample.DEFAULT_USER Sample.DEFAULT_PASS Calendar.isoformat
              Calendar.strptime last_seen_order Sample.now Sample.ws_empty
              {| credentials := Sample.owner; target := PostTokens 100 10 50 |}
              Sample.milk Hauth)
    as (data' & Hr & Hstamp & Htok & Htodo & _).
  exists data'. repeat split; assumption.
Defined.

(** C9. An authenticated post of an achievement whose period is not the
    exact text [24h] extends the stored week list and leaves the stored
    24-hour list as it was; the exact text [24h] extends the stored
    24-hour list and leaves the week list as it was. *)
Theorem period_routing DASHBOARD_USER DASHBOARD_PASS isoformat strptime
    (order : SetOrder) now ws creds text period data_file :
  verify_auth DASHBOARD_USER DASHBOARD_PASS creds = Return true ->
  exists data',
    serve DASHBOARD_USER DASHBOARD_PASS isoformat strptime now ws
      {| credentials := creds; target := PostAchievement text period |} data_file
      = (StatusOk, Some data')
    /\ (period <> lit "24h" ->
          achievements_week data' = achievements_week (load_data data_file) ++ [text]
          /\ achievements_24h data' = achievements_24h (load_data data_file))
    /\ (period = lit "24h" ->
          achievements_24h data' = achievements_24h (load_data data_file) ++ [text]
          /\ achievements_week data' = achievements_week (load_data data_file)).
Proof.
  intros Hauth. unfold serve. simpl. rewrite Hauth.
  unfold add_achievement, save_data. eexists. split; [reflexivity|].
  destruct (decide (period = lit "24h")); simpl; split; intros; done.
Qed.

Lemma period_routing_witness :
  verify_auth Sample.DEFAULT_USER Sample.DEFAULT_PASS Sample.owner = Return true
  /\ lit "" <> lit "24h"
  /\ exists data',
       serve Sample.DEFAULT_USER Sample.DEFAULT_PASS Calendar.isoformat
         Calendar.strptime Sample.now Sample.ws_empty
         {| credentials := Sample.owner;
            target := PostAchievement (lit "shipped feature") (lit "") |} None
         = (StatusOk, Some data')
       /\ achievements_week data' = [lit "shipped feature"]
       /\ achievements_24h data' = [].
Proof.
  assert (Hauth : verify_auth Sample.DEFAULT_USER Sample.DEFAULT_PASS Sample.owner
                  = Return true) by reflexivity.
  assert (Hne : lit "" <> lit "24h") by discriminate.
  split; [exact Hauth|]. split; [exact Hne|].
  destruct (period_routing Sample.DEFAULT_USER Sample.DEFAULT_PASS Calendar.isoformat
              Calendar.strptime last_seen_order Sample.now Sample.ws_empty
              Sample.owner (lit "shipped feature") (lit "") None Hauth)
    as (data' & Hr & Hweek & _).
  exists data'. split; [exact Hr|]. exact (Hweek Hne).
Defined.

(** * Further properties of the code *)

(** ** Authentication *)

Lemma rejected_request_writes_nothing_witness :
  verify_auth Sample.DEFAULT_USER Sample.UMLAUT_PASS Sample.intruder <> Return true
  /\ (serve Sample.DEFAULT_USER Sample.UMLAUT_PASS Calendar.isoformat Calendar.strptime
        Sample.now Sample.ws_empty
        {| credentials := Sample.intruder; target := PostTokens 1 2 3 |}
        Sample.milk).2 = Sample.milk.
Proof.
  assert (H : verify_auth Sample.DEFAULT_USER Sample.UMLAUT_PASS Sample.intruder
              <> Return true) by discriminate.
  split; [exact H|].
  exact (rejected_request_writes_nothing Sample.DEFAULT_USER Sample.UMLAUT_PASS
           Calendar.isoformat Calendar.strptime Sample.now Sample.ws_empty
           {| credentials := Sample.intruder; target := PostTokens 1 2 3 |}
           Sample.milk H).
Defined.

Lemma wrong_credentials_rejected_witness :
  (is_ascii Sample.DEFAULT_USER = true /\ is_ascii Sample.DEFAULT_PASS = true
   /\ is_ascii (username Sample.intruder) = true
   /\ is_ascii (password Sample.intruder) = true
   /\ password Sample.intruder <> Sample.DEFAULT_PASS)
  /\ serve Sample.DEFAULT_USER Sample.DEFAULT_PASS Calendar.isoformat Calendar.strptime
       Sample.now Sample.ws_notes
       {| credentials := Sample.intruder; target := GetDashboard |} Sample.milk
     = (ErrorResponse 401 [(lit "WWW-Authenticate", lit "Basic")], Sample.milk).
Proof.
  assert (Hne : password Sample.intruder <> Sample.DEFAULT_PASS) by discriminate.
  split; [by repeat split|].
  exact (wrong_credentials_rejected Sample.DEFAULT_USER Sample.DEFAULT_PASS
           Calendar.isoformat Calendar.strptime Sample.now Sample.ws_notes
           {| credentials := Sample.intruder; target := GetDashboard |} Sample.milk
           eq_refl eq_refl eq_refl eq_refl (or_intror Hne)).
Defined.

Lemma compare_digest_true a b :
  compare_digest a b = Some true <-> a = b /\ is_ascii b = true.
Proof.
  unfold compare_digest. split.
  - destruct (is_ascii a) eqn:Ha, (is_ascii b) eqn:Hb; simpl; try done.
    intros [= H%bool_decide_eq_true]. done.
  - intros [-> Hb]. rewrite Hb. simpl. by rewrite bool_decide_eq_true_2.
Qed.

(** X3. The check lets a request through exactly when its user name and
    password equal the two configured secrets and both secrets are ASCII
    text; with a secret outside ASCII nobody is ever let through. *)
Theorem verify_auth_accepts DASHBOARD_USER DASHBOARD_PASS credentials :
  verify_auth DASHBOARD_USER DASHBOARD_PASS credentials = Return true
  <-> (username credentials = DASHBOARD_USER
       /\ password credentials = DASHBOARD_PASS
       /\ is_ascii DASHBOARD_USER = true
       /\ is_ascii DASHBOARD_PASS = true).
Proof.
  unfold verify_auth. split.
  - destruct (compare_digest (username credentials) DASHBOARD_USER)
      as [[|]|] eqn:Hu; try done.
    destruct (compare_digest (password credentials) DASHBOARD_PASS)
      as [[|]|] eqn:Hp; try done.
    apply compare_digest_true in Hu, Hp. tauto.
  - intros (Hu & Hp & Hau & Hap).
    rewrite (proj2 (compare_digest_true _ _) (conj Hu Hau)).
    by rewrite (proj2 (compare_digest_true _ _) (conj Hp Hap)).
Qed.


(** ** Todos *)

Lemma add_stored_elem todos item : item ∈ add_stored todos item.
Proof.
  unfold add_stored. destruct (decide (item ∈ todos)); [done|].
  apply elem_of_app. right. by left.
Qed.

Lemma add_stored_keeps todos item t : t ∈ todos -> t ∈ add_stored todos item.
Proof.
  intros Ht. unfold add_stored. destruct (decide (item ∈ todos)); [done|].
  apply elem_of_app. by left.
Qed.

Lemma add_stored_fold_keeps stored : forall todos t,
  t ∈ todos -> t ∈ fold_left add_stored stored todos.
Proof.
  induction stored as [|s stored IH]; intros todos t Ht; simpl; [done|].
  by apply IH, add_stored_keeps.
Qed.

Lemma add_stored_fold_elem stored : forall todos t,
  t ∈ stored -> t ∈ fold_left add_stored stored todos.
Proof.
  induction stored as [|s stored IH]; intros todos t Ht; [by inversion Ht|].
  simpl. apply elem_of_cons in Ht as [->|Ht]; [|by apply IH].
  apply add_stored_fold_keeps, add_stored_elem.
Qed.

(** X5. Posting a todo that the document already stores does not change
    the list that [get_todos] returns (the document itself grows by the
    duplicate). *)
Theorem repeated_todo_post_invisible isoformat now task done ws data_file :
  {| task := task; done := done; source := None |} ∈ todo (load_data data_file) ->
  get_todos ws (add_todo isoformat now task done data_file) = get_todos ws data_file.
Proof.
  intros Hin. unfold get_todos, merge_todos.
  destruct (heartbeat_todos ws) as [hb|]; [|done].
  rewrite add_todo_stored, fold_left_app. simpl.
  unfold add_stored at 1. rewrite decide_True; [done|].
  by apply add_stored_fold_elem.
Qed.

Lemma repeated_todo_post_invisible_witness :
  {| task := lit "buy milk"; done := false; source := None |}
    ∈ todo (load_data Sample.milk)
  /\ get_todos Sample.ws_heartbeat
       (add_todo Calendar.isoformat Sample.now (lit "buy milk") false Sample.milk)
     = get_todos Sample.ws_heartbeat Sample.milk.
Proof.
  assert (H : {| task := lit "buy milk"; done := false; source := None |}
                ∈ todo (load_data Sample.milk)) by left.
  split; [exact H|].
  exact (repeated_todo_post_invisible Calendar.isoformat Sample.now (lit "buy milk")
           false Sample.ws_heartbeat Sample.milk H).
Defined.

(** X6. The entries of the heartbeat file come first, in the order of the
    file, and the stored todos only fill what is left of the 30 places:
    with 30 or more checklist lines the result is the first 30 of them,
    whatever is stored. *)
Theorem heartbeat_entries_first ws data_file hb :
  heartbeat_todos ws = Some hb ->
  exists todos,
    get_todos ws data_file = Some todos
    /\ take 30 hb `prefix_of` todos
    /\ ((30 <= length hb)%nat -> todos = take 30 hb).
Proof.
  intros Hhb.
  destruct (merge_todos_eq ws data_file hb Hhb) as (extra & _ & Hget & _).
  eexists. split; [exact Hget|]. rewrite take_app. split.
  - by apply prefix_app_r.
  - intros Hlen. rewrite (proj2 (Nat.sub_0_le _ _) Hlen). simpl. by rewrite app_nil_r.
Qed.

Lemma heartbeat_entries_first_witness :
  (exists hb, heartbeat_todos Sample.ws_busy = Some hb /\ length hb = 30%nat)
  /\ get_todos Sample.ws_busy Sample.milk = get_todos Sample.ws_busy None.
Proof.
  split; [eexists; split; reflexivity|].
  destruct (heartbeat_entries_first Sample.ws_busy Sample.milk _ eq_refl)
    as (t1 & H1 & _ & E1); [].
  destruct (heartbeat_entries_first Sample.ws_busy None _ eq_refl)
    as (t2 & H2 & _ & E2); [].
  rewrite H1, H2, E1, E2; [reflexivity|vm_compute; lia..].
Defined.

(** ** Reading back what was posted *)

(** X7. After an update of the tokens the resolver returns the supplied
    triple, unless the stats file parses to a JSON object: then the update
    does not show at all and the resolver returns what it returned before. *)
Theorem token_update_read_back isoformat now total today week ws data_file :
  match stats_file ws with
  | StatsParsed (JDict _) =>
      get_token_usage ws (update_tokens isoformat now total today week data_file)
        = get_token_usage ws data_file
  | _ =>
      get_token_usage ws (update_tokens isoformat now total today week data_file)
        = {| total := JInt total; today := JInt today; week := JInt week |}
  end.
Proof.
  unfold get_token_usage.
  destruct (stats_file ws) as [| |stats]; [done..|].
  by destruct stats.
Qed.

Lemma list_set_short_elem (order : SetOrder) n xs x :
  (length (list_set xs) <= n)%nat -> x ∈ xs -> x ∈ take n (list_set xs).
Proof. intros Hlen Hx. rewrite take_ge by done. by apply list_set_elem. Qed.

(** X8. A posted achievement is read back from the list its period names
    (the 24-hour list for the exact period [24h], the week list for any
    other), whatever the notes and however much later, provided the
    distinct texts of that list do not exceed its cap; the text itself is
    not checked, so even an empty one is kept. *)
Theorem posted_achievement_read_back (order : SetOrder) strptime isoformat
    now later ws text period data_file :
  let posted := add_achievement isoformat now text period data_file in
  let acc := collect_achievements strptime later ws posted in
  let r := get_achievements strptime later ws posted in
  if decide (period = lit "24h")
  then text ∈ acc.1 /\ ((length (list_set acc.1) <= 20)%nat -> text ∈ r.1)
  else text ∈ acc.2 /\ ((length (list_set acc.2) <= 50)%nat -> text ∈ r.2).
Proof.
  intros posted acc r.
  assert (H24 : period = lit "24h" -> text ∈ acc.1).
  { intros Hp. unfold acc, posted. rewrite collect_achievements_eq. simpl.
    unfold add_achievement. rewrite decide_True by done. simpl.
    rewrite !elem_of_app, list_elem_of_singleton. auto. }
  assert (Hweek : period <> lit "24h" -> text ∈ acc.2).
  { intros Hp. unfold acc, posted. rewrite collect_achievements_eq. simpl.
    unfold add_achievement. rewrite decide_False by done. simpl.
    rewrite !elem_of_app, list_elem_of_singleton. auto. }
  destruct (decide (period = lit "24h")) as [Hp|Hp].
  - split; [auto|]. intros Hlen. by apply list_set_short_elem; auto.
  - split; [auto|]. intros Hlen. by apply list_set_short_elem; auto.
Qed.

Lemma posted_achievement_read_back_witness :
  (length (list_set (collect_achievements Calendar.strptime Sample.now Sample.ws_notes
                       Sample.week_only).2) <= 50)%nat
  /\ lit "wrote the plan"
       ∈ (get_achievements Calendar.strptime Sample.now Sample.ws_notes
            Sample.week_only).2.
Proof.
  assert (Hlen : (length (list_set (collect_achievements Calendar.strptime Sample.now
                    Sample.ws_notes Sample.week_only).2) <= 50)%nat)
    by (vm_compute; lia).
  split; [exact Hlen|].
  exact (proj2 (posted_achievement_read_back last_seen_order Calendar.strptime
                  Calendar.isoformat Sample.now Sample.now Sample.ws_notes
                  (lit "wrote the plan") (lit "week") None) Hlen).
Defined.

(** X9. Below the caps the order of the set is all that is left open: two
    runs that differ only in how their sets iterate return the same texts,
    one a rearrangement of the other. *)
Theorem achievements_up_to_order (order1 order2 : SetOrder) strptime now ws data_file :
  let acc := collect_achievements strptime now ws data_file in
  ((length (@list_set order1 acc.1) <= 20)%nat ->
     (@get_achievements strptime order1 now ws data_file).1
       ≡ₚ (@get_achievements strptime order2 now ws data_file).1)
  /\ ((length (@list_set order1 acc.2) <= 50)%nat ->
     (@get_achievements strptime order1 now ws data_file).2
       ≡ₚ (@get_achievements strptime order2 now ws data_file).2).
Proof.
  intros acc.
  assert (Hperm : forall xs, @list_set order1 xs ≡ₚ @list_set order2 xs).
  { intros xs. apply NoDup_Permutation; [apply list_set_NoDup..|].
    intros x. by rewrite !list_set_elem. }
  unfold get_achievements. fold acc. clearbody acc. cbn [fst snd].
  split; intros Hlen.
  - pose proof (Permutation_length (Hperm acc.1)) as Hl.
    rewrite (take_ge (@list_set order1 acc.1)) by done.
    rewrite (take_ge (@list_set order2 acc.1)) by lia. apply Hperm.
  - pose proof (Permutation_length (Hperm acc.2)) as Hl.
    rewrite (take_ge (@list_set order1 acc.2)) by done.
    rewrite (take_ge (@list_set order2 acc.2)) by lia. apply Hperm.
Qed.

Lemma achievements_up_to_order_witness :
  (length (@list_set last_seen_order
             (collect_achievements Calendar.strptime Sample.now Sample.ws_notes
                Sample.posted_twice).1) <= 20)%nat
  /\ (@get_achievements Calendar.strptime last_seen_order Sample.now Sample.ws_notes
        Sample.posted_twice).1
     ≡ₚ (@get_achievements Calendar.strptime reversed_order Sample.now Sample.ws_notes
           Sample.posted_twice).1.
Proof.
  assert (Hlen : (length (@list_set last_seen_order
             (collect_achievements Calendar.strptime Sample.now Sample.ws_notes
                Sample.posted_twice).1) <= 20)%nat) by (vm_compute; lia).
  split; [exact Hlen|].
  exact (proj1 (achievements_up_to_order last_seen_order reversed_order
                  Calendar.strptime Sample.now Sample.ws_notes Sample.posted_twice)
           Hlen).
Defined.

(** ** Where the entries of the notes come from *)

Lemma scan_line_origin now file_date acc raw x :
  (x ∈ (scan_line now file_date acc raw).1 ->
     x ∈ acc.1
     \/ (is_achievement (strip raw) = true /\ x = extract (strip raw) /\ x <> []
         /\ (days (now - file_date) < 1)%Z))
  /\ (x ∈ (scan_line now file_date acc raw).2 ->
     x ∈ acc.2
     \/ (is_achievement (strip raw) = true /\ x = extract (strip raw) /\ x <> []
         /\ (days (now - file_date) < 7)%Z)).
Proof.
  rewrite scan_line_cases.
  destruct (is_achievement (strip raw)); simpl; [|by split; left].
  destruct (bool_decide (extract (strip raw) = [])) eqn:He; simpl; [by split; left|].
  apply bool_decide_eq_false in He.
  split; intros [?|Hx]%elem_of_app; try by left.
  - destruct (days (now - file_date) <? 1)%Z eqn:Hd; [|by inversion Hx].
    apply list_elem_of_singleton in Hx as ->. apply Z.ltb_lt in Hd. by right.
  - destruct (days (now - file_date) <? 7)%Z eqn:Hd; [|by inversion Hx].
    apply list_elem_of_singleton in Hx as ->. apply Z.ltb_lt in Hd. by right.
Qed.

Lemma scan_lines_origin now file_date lines : forall acc x,
  (x ∈ (fold_left (scan_line now file_date) lines acc).1 ->
     x ∈ acc.1
     \/ exists raw, raw ∈ lines /\ is_achievement (strip raw) = true
          /\ x = extract (strip raw) /\ x <> []
          /\ (days (now - file_date) < 1)%Z)
  /\ (x ∈ (fold_left (scan_line now file_date) lines acc).2 ->
     x ∈ acc.2
     \/ exists raw, raw ∈ lines /\ is_achievement (strip raw) = true
          /\ x = extract (strip raw) /\ x <> []
          /\ (days (now - file_date) < 7)%Z).
Proof.
  induction lines as [|l lines IH]; intros acc x; simpl; [by split; left|].
  destruct (IH (scan_line now file_date acc l) x) as [IH1 IH2].
  destruct (scan_line_origin now file_date acc l x) as [S1 S2].
  split; intros Hx.
  - destruct (IH1 Hx) as [Ha|(raw & Hraw & HP)].
    + destruct (S1 Ha) as [?|HP]; [by left|]. right. exists l. split; [by left|done].
    + right. exists raw. split; [by right|done].
  - destruct (IH2 Hx) as [Ha|(raw & Hraw & HP)].
    + destruct (S2 Ha) as [?|HP]; [by left|]. right. exists l. split; [by left|done].
    + right. exists raw. split; [by right|done].
Qed.

Lemma scan_note_origin strptime now acc f x :
  (x ∈ (scan_note strptime now acc f).1 ->
     x ∈ acc.1 \/ from_lines_of strptime now f 1 x)
  /\ (x ∈ (scan_note strptime now acc f).2 ->
     x ∈ acc.2 \/ from_lines_of strptime now f 7 x).
Proof.
  unfold scan_note, from_lines_of.
  destruct (strptime (stem (note_name f))) as [file_date|]; [|by split; left].
  destruct (note_file f) as [| |content]; simpl; [by split; left..|].
  destruct (scan_lines_origin now file_date (split NEWLINE content) acc x) as [L1 L2].
  split; intros Hx; [destruct (L1 Hx) as [?|(raw & ?)]|destruct (L2 Hx) as [?|(raw & ?)]];
    try (by left); right; exists file_date, content, raw; tauto.
Qed.

Lemma scan_notes_origin strptime now notes : forall acc x,
  (x ∈ (fold_left (scan_note strptime now) notes acc).1 ->
     x ∈ acc.1 \/ exists f, f ∈ notes /\ from_lines_of strptime now f 1 x)
  /\ (x ∈ (fold_left (scan_note strptime now) notes acc).2 ->
     x ∈ acc.2 \/ exists f, f ∈ notes /\ from_lines_of strptime now f 7 x).
Proof.
  induction notes as [|g notes IH]; intros acc x; simpl; [by split; left|].
  destruct (IH (scan_note strptime now acc g) x) as [IH1 IH2].
  destruct (scan_note_origin strptime now acc g x) as [S1 S2].
  split; intros Hx.
  - destruct (IH1 Hx) as [Ha|(f & Hf & HP)].
    + destruct (S1 Ha) as [?|HP]; [by left|]. right. exists g. split; [by left|done].
    + right. exists f. split; [by right|done].
  - destruct (IH2 Hx) as [Ha|(f & Hf & HP)].
    + destruct (S2 Ha) as [?|HP]; [by left|]. right. exists g. split; [by left|done].
    + right. exists f. split; [by right|done].
Qed.

(** X10. Nothing but the notes feeds [scan_memory]: every entry of its
    24-hour list is the non-empty extract of a marked line of a readable
    [.md] note whose name parses as a date less than one day before now,
    and every entry of its week list the same with seven days. Notes that
    cannot be read, names that are no date and older notes never
    contribute. *)
Theorem note_entries_origin strptime now ws x :
  (x ∈ (scan_memory strptime now ws).1 -> from_note strptime now ws 1 x)
  /\ (x ∈ (scan_memory strptime now ws).2 -> from_note strptime now ws 7 x).
Proof.
  unfold scan_memory, from_note.
  destruct (memory_dir ws) as [entries|]; [|split; by inversion 1].
  destruct (scan_notes_origin strptime now (sorted_reverse (glob_md entries)) ([], []) x)
    as [N1 N2].
  split; intros Hx;
    [destruct (N1 Hx) as [Hnil|(f & Hf & P)]|destruct (N2 Hx) as [Hnil|(f & Hf & P)]];
    try (by inversion Hnil);
    apply sorted_glob_elem in Hf as [Hf Hmd];
    destruct P as (file_date & content & raw & Hd & Ht & Hr & Hm & He & Hne & Hw);
    exists entries, f, file_date, content, raw;
    repeat split; auto; by apply days_lt.
Qed.

Lemma note_entries_origin_witness :
  lit "shipped feature" ∈ (scan_memory Calendar.strptime Sample.now Sample.ws_notes).1
  /\ from_note Calendar.strptime Sample.now Sample.ws_notes 1 (lit "shipped feature").
Proof.
  assert (H : lit "shipped feature"
                ∈ (scan_memory Calendar.strptime Sample.now Sample.ws_notes).1) by left.
  split; [exact H|].
  exact (proj1 (note_entries_origin Calendar.strptime Sample.now Sample.ws_notes _) H).
Defined.

(** X11. Every entry that the notes put into the 24-hour list is also put
    into the week list. *)
Theorem note_day_entries_in_week strptime now ws x :
  x ∈ (scan_memory strptime now ws).1 -> x ∈ (scan_memory strptime now ws).2.
Proof.
  intros Hx.
  destruct (scan_notes_origin strptime now
              (match memory_dir ws with
               | Some entries => sorted_reverse (glob_md entries)
               | None => []
               end) ([], []) x) as [N1 _].
  unfold scan_memory in *. destruct (memory_dir ws) as [entries|]; [|done].
  destruct (N1 Hx) as [Hnil|(f & Hf & P)]; [by inversion Hnil|].
  destruct P as (file_date & content & raw & Hd & Ht & Hr & Hm & -> & Hne & Hw).
  eapply scan_notes_add_week; [exact Hf|]. intros acc0.
  unfold scan_note. rewrite Hd, Ht. simpl.
  apply scan_lines_add; auto. lia.
Qed.

Lemma note_day_entries_in_week_witness :
  lit "shipped feature" ∈ (scan_memory Calendar.strptime Sample.now Sample.ws_notes).1
  /\ lit "shipped feature"
       ∈ (scan_memory Calendar.strptime Sample.now Sample.ws_notes).2.
Proof.
  assert (H : lit "shipped feature"
                ∈ (scan_memory Calendar.strptime Sample.now Sample.ws_notes).1) by left.
  split; [exact H|].
  exact (note_day_entries_in_week Calendar.strptime Sample.now Sample.ws_notes _ H).
Defined.

(** ** Trimmed texts *)

Lemma lstrip_where_split p s :
  exists dropped, s = dropped ++ lstrip_where p s
    /\ head (lstrip_where p s) ≫= (fun c => Some (p c)) <> Some true.
Proof.
  induction s as [|c s (dropped & Hs & Hh)]; simpl.
  - by exists [].
  - destruct (p c) eqn:Hc.
    + exists (c :: dropped). simpl. by rewrite <- Hs.
    + exists []. simpl. rewrite Hc. done.
Qed.

Lemma lstrip_where_head p s c : head (lstrip_where p s) = Some c -> p c = false.
Proof.
  destruct (lstrip_where_split p s) as (_ & _ & Hh). intros E. rewrite E in Hh.
  simpl in Hh. destruct (p c); congruence.
Qed.

Lemma head_rev_last {A} (l : list A) : head (rev l) = last l.
Proof.
  induction l as [|x l IH] using rev_ind; [done|].
  by rewrite rev_app_distr, last_snoc.
Qed.

Lemma strip_ends s c :
  head (strip s) = Some c \/ last (strip s) = Some c -> isspace c = false.
Proof.
  unfold strip, rstrip_where.
  set (r := lstrip_where isspace s).
  destruct (lstrip_where_split isspace (rev r)) as (dropped & Hsplit & _).
  set (m := lstrip_where isspace (rev r)) in *.
  intros [Hh|Hl].
  - apply (lstrip_where_head isspace s).
    assert (Hr : r = rev m ++ rev dropped).
    { rewrite <- rev_app_distr, <- Hsplit. by rewrite rev_involutive. }
    fold r. rewrite Hr. destruct (rev m); [done|]. exact Hh.
  - apply (lstrip_where_head isspace (rev r)). fold m.
    rewrite <- head_rev_last, rev_involutive in Hl. exact Hl.
Qed.

Lemma heartbeat_entry_task raw h :
  heartbeat_entry raw = Some h -> task h = strip (drop 5 (strip raw)).
Proof.
  unfold heartbeat_entry.
  destruct (startswith _ (lit "- [ ]")); [by intros [= <-]|].
  destruct (startswith _ (lit "- [x]")); [by intros [= <-]|done].
Qed.

(** X12. What the aggregators read from files is trimmed: an entry that
    the notes contribute is not empty and neither begins nor ends with
    white space, and the task of a heartbeat entry neither begins nor ends
    with white space. *)
Theorem file_texts_trimmed strptime now ws :
  (forall x, x ∈ (scan_memory strptime now ws).1 \/ x ∈ (scan_memory strptime now ws).2 ->
     x <> []
     /\ forall c, head x = Some c \/ last x = Some c -> isspace c = false)
  /\ (forall hb h, heartbeat_todos ws = Some hb -> h ∈ hb ->
     forall c, head (task h) = Some c \/ last (task h) = Some c -> isspace c = false).
Proof.
  split.
  - intros x Hx.
    assert (Hfrom : exists line, x = extract line /\ x <> []).
    { unfold scan_memory in Hx. destruct (memory_dir ws) as [entries|];
        [|destruct Hx as [Hx|Hx]; by inversion Hx].
      destruct (scan_notes_origin strptime now (sorted_reverse (glob_md entries))
                  ([], []) x) as [N1 N2].
      destruct Hx as [Hx|Hx];
        [destruct (N1 Hx) as [Hnil|(f & _ & P)]|destruct (N2 Hx) as [Hnil|(f & _ & P)]];
        try (by inversion Hnil);
        destruct P as (_ & _ & raw & _ & _ & _ & _ & He & Hne & _); eauto. }
    destruct Hfrom as (line & -> & Hne). split; [done|].
    intros c. unfold extract. apply strip_ends.
  - intros hb h Hhb Hh c.
    unfold heartbeat_todos in Hhb. destruct (heartbeat ws) as [| |content]; [|done|].
    + injection Hhb as <-. by inversion Hh.
    + injection Hhb as <-. rewrite scan_heartbeat_lines in Hh. simpl in Hh.
      apply list_elem_of_omap in Hh as (raw & _ & Hraw).
      rewrite (heartbeat_entry_task raw h Hraw). apply strip_ends.
Qed.

Lemma file_texts_trimmed_witness :
  lit "shipped feature" ∈ (scan_memory Calendar.strptime Sample.now Sample.ws_notes).1
  /\ head (lit "shipped feature") = Some 0x73%N
  /\ isspace 0x73%N = false.
Proof.
  assert (H : lit "shipped feature"
                ∈ (scan_memory Calendar.strptime Sample.now Sample.ws_notes).1) by left.
  split; [exact H|]. split; [reflexivity|].
  exact (proj2 (proj1 (file_texts_trimmed Calendar.strptime Sample.now Sample.ws_notes)
                  _ (or_introl H)) _ (or_introl eq_refl)).
Defined.

(** ** Histories of requests *)

Section HistoryFacts.

Variables DASHBOARD_USER DASHBOARD_PASS : str.
Variable isoformat : datetime -> str.
Variable strptime : str -> option datetime.
Context {order : SetOrder}.

Local Abbreviation serve' := (serve DASHBOARD_USER DASHBOARD_PASS isoformat strptime).
Local Abbreviation run' := (run DASHBOARD_USER DASHBOARD_PASS isoformat strptime).
Local Abbreviation authorized' := (authorized DASHBOARD_USER DASHBOARD_PASS).
Local Abbreviation writes' := (writes DASHBOARD_USER DASHBOARD_PASS).
Local Abbreviation posted_todos' := (posted_todos DASHBOARD_USER DASHBOARD_PASS).
Local Abbreviation posted_24h' := (posted_24h DASHBOARD_USER DASHBOARD_PASS).
Local Abbreviation posted_week' := (posted_week DASHBOARD_USER DASHBOARD_PASS).

Lemma serve_idle now ws req data_file :
  writes' (now, ws, req) = false -> (serve' now ws req data_file).2 = data_file.
Proof.
  unfold writes, authorized, serve. simpl.
  destruct (verify_auth _ _ _) as [b|[e|]]; [|done..].
  destruct (target req); simpl; try done.
  by destruct (dashboard _ _ _ _) as [p|[e|]].
Qed.

Lemma serve_stored now ws req data_file :
  let after := load_data (serve' now ws req data_file).2 in
  todo after = todo (load_data data_file) ++ posted_todos' [(now, ws, req)]
  /\ achievements_24h after
     = achievements_24h (load_data data_file) ++ posted_24h' [(now, ws, req)]
  /\ achievements_week after
     = achievements_week (load_data data_file) ++ posted_week' [(now, ws, req)].
Proof.
  unfold posted_todos, posted_24h, posted_week, authorized, serve. simpl.
  destruct (verify_auth _ _ _) as [b|[e|]]; simpl;
    [|destruct (target req); simpl; by rewrite ?app_nil_r..].
  destruct (target req) as [|text period|task done|total today week]; simpl;
    rewrite ?app_nil_r.
  - by destruct (dashboard _ _ _ _) as [p|[e|]].
  - unfold add_achievement.
    destruct (decide (period = lit "24h")) as [Hp|Hp]; simpl.
    + rewrite bool_decide_eq_true_2 by done. simpl. by rewrite app_nil_r.
    + rewrite bool_decide_eq_false_2 by done. simpl. by rewrite app_nil_r.
  - done.
  - done.
Qed.

Lemma run_stored history : forall data_file,
  let after := load_data (run' history data_file) in
  todo after = todo (load_data data_file) ++ posted_todos' history
  /\ achievements_24h after
     = achievements_24h (load_data data_file) ++ posted_24h' history
  /\ achievements_week after
     = achievements_week (load_data data_file) ++ posted_week' history.
Proof.
  induction history as [|[[now ws] req] history IH]; intros data_file; simpl.
  - by rewrite !app_nil_r.
  - destruct (IH (serve' now ws req data_file).2) as (T & D & W).
    destruct (serve_stored now ws req data_file) as (T1 & D1 & W1).
    simpl in T, D, W, T1, D1, W1.
    rewrite T, D, W, T1, D1, W1.
    unfold posted_todos, posted_24h, posted_week. simpl.
    rewrite !app_nil_r, <- !app_assoc. done.
Qed.

End HistoryFacts.

(** X13. After any sequence of requests the three stored lists are the
    prior lists followed by what the authorized posts carried, in the order
    of the requests: nothing stored is ever removed, reordered or changed,
    no cap applies when writing, and requests that fail the check add
    nothing. *)
Theorem stored_lists_after_history DASHBOARD_USER DASHBOARD_PASS isoformat strptime
    (order : SetOrder) history data_file :
  let after :=
    load_data (run DASHBOARD_USER DASHBOARD_PASS isoformat strptime history data_file) in
  todo after
    = todo (load_data data_file) ++ posted_todos DASHBOARD_USER DASHBOARD_PASS history
  /\ achievements_24h after
     = achievements_24h (load_data data_file)
       ++ posted_24h DASHBOARD_USER DASHBOARD_PASS history
  /\ achievements_week after
     = achievements_week (load_data data_file)
       ++ posted_week DASHBOARD_USER DASHBOARD_PASS history.
Proof. apply run_stored. Qed.

(** X14. Requests that fail the check and requests for the page leave no
    trace: dropping them from a history gives the same document. *)
Theorem idle_requests_leave_no_trace DASHBOARD_USER DASHBOARD_PASS isoformat strptime
    (order : SetOrder) history data_file :
  run DASHBOARD_USER DASHBOARD_PASS isoformat strptime
    (filter (fun e => writes DASHBOARD_USER DASHBOARD_PASS e = true) history) data_file
  = run DASHBOARD_USER DASHBOARD_PASS isoformat strptime history data_file.
Proof.
  revert data_file.
  induction history as [|[[now ws] req] history IH]; intros data_file; [done|].
  rewrite filter_cons.
  destruct (decide (writes DASHBOARD_USER DASHBOARD_PASS (now, ws, req) = true))
    as [Hw|Hw]; simpl.
  - apply IH.
  - apply not_true_is_false in Hw. rewrite serve_idle by done. apply IH.
Qed.

Lemma posted_todos_plain DASHBOARD_USER DASHBOARD_PASS history :
  Forall (fun t => source t = None) (posted_todos DASHBOARD_USER DASHBOARD_PASS history).
Proof.
  induction history as [|[[now ws] req] history IH]; [constructor|].
  unfold posted_todos. simpl. apply Forall_app. split; [|exact IH].
  destruct (target req); try constructor.
  destruct (authorized _ _ _); repeat constructor.
Qed.

(** X15. The endpoints never store a todo with a source: if no stored todo
    has one, none has one after any sequence of requests. *)
Theorem stored_todos_stay_plain DASHBOARD_USER DASHBOARD_PASS isoformat strptime
    (order : SetOrder) history data_file :
  Forall (fun t => source t = None) (todo (load_data data_file)) ->
  Forall (fun t => source t = None)
    (todo (load_data
             (run DASHBOARD_USER DASHBOARD_PASS isoformat strptime history data_file))).
Proof.
  intros Hplain.
  destruct (run_stored DASHBOARD_USER DASHBOARD_PASS isoformat strptime history data_file)
    as (-> & _).
  apply Forall_app. split; [done|apply posted_todos_plain].
Qed.

Lemma stored_todos_stay_plain_witness :
  Forall (fun t => source t = None) (todo (load_data None))
  /\ todo (load_data
             (run Sample.DEFAULT_USER Sample.DEFAULT_PASS Calendar.isoformat
                Calendar.strptime Sample.history None))
     = [{| task := lit "buy milk"; done := false; source := None |}]
  /\ Forall (fun t => source t = None)
       (todo (load_data
                (run Sample.DEFAULT_USER Sample.DEFAULT_PASS Calendar.isoformat
                   Calendar.strptime Sample.history None))).
Proof.
  assert (H : Forall (fun t => source t = None) (todo (load_data None)))
    by constructor.
  split; [exact H|]. split; [reflexivity|].
  exact (stored_todos_stay_plain Sample.DEFAULT_USER Sample.DEFAULT_PASS
           Calendar.isoformat Calendar.strptime last_seen_order Sample.history None H).
Defined.

(** ** The page *)


(** Fractional counters are shown; a counter that is a string breaks the
    page. *)
Example float_counters_shown :
  dashboard Calendar.strptime Sample.now Sample.ws_stats_float None
    = Return {| page_tokens := {| total := JFloat 1000000%float;
                                  today := JFloat 1.5%float;
                                  week := JInt 0 |};
                page_24h := []; page_week := []; page_todos := [] |}
  /\ dashboard Calendar.strptime Sample.now Sample.ws_stats_text None = Raise Uncaught.
Proof. split; reflexivity. Qed.

(** ** The latest write *)

Section LatestFacts.

Variables DASHBOARD_USER DASHBOARD_PASS : str.
Variable isoformat : datetime -> str.
Variable strptime : str -> option datetime.
Context {order : SetOrder}.

Lemma serve_stamp now ws req data_file :
  writes DASHBOARD_USER DASHBOARD_PASS (now, ws, req) = true ->
  last_updated
    (load_data (serve DASHBOARD_USER DASHBOARD_PASS isoformat strptime now ws req
                  data_file).2)
  = Some (isoformat now).
Proof.
  unfold writes, authorized, serve. simpl.
  destruct (verify_auth _ _ _) as [b|[e|]]; [|done..].
  destruct (target req); simpl; done.
Qed.

Lemma serve_tokens now ws req data_file :
  token_usage
    (load_data (serve DASHBOARD_USER DASHBOARD_PASS isoformat strptime now ws req
                  data_file).2)
  = default (token_usage (load_data data_file))
      (last (posted_tokens DASHBOARD_USER DASHBOARD_PASS [(now, ws, req)])).
Proof.
  unfold posted_tokens, authorized, serve. simpl.
  destruct (verify_auth _ _ _) as [b|[e|]]; [|by destruct (target req)..].
  destruct (target req) as [|text period|task done|total today week]; simpl.
  - by destruct (dashboard _ _ _ _) as [p|[e|]].
  - unfold add_achievement. by destruct (decide (period = lit "24h")).
  - reflexivity.
  - reflexivity.
Qed.

End LatestFacts.

(** X17. The latest write wins: after any sequence of requests the stamp
    [last_updated] is the moment of the last authorized post (page views
    and rejected requests do not touch it), and the stored counters are
    those of the last authorized token update, or the prior ones when
    there was none. *)
Theorem latest_write_wins DASHBOARD_USER DASHBOARD_PASS isoformat strptime
    (order : SetOrder) history data_file :
  let after :=
    load_data (run DASHBOARD_USER DASHBOARD_PASS isoformat strptime history data_file) in
  last_updated after
    = match last (filter (fun e => writes DASHBOARD_USER DASHBOARD_PASS e = true) history)
      with
      | Some e => Some (isoformat e.1.1)
      | None => last_updated (load_data data_file)
      end
  /\ token_usage after
     = default (token_usage (load_data data_file))
         (last (posted_tokens DASHBOARD_USER DASHBOARD_PASS history)).
Proof.
  revert data_file.
  induction history as [|[[now ws] req] history IH]; intros data_file; [done|].
  simpl. destruct (IH (serve DASHBOARD_USER DASHBOARD_PASS isoformat strptime now ws req
                         data_file).2) as [IHs IHt].
  split.
  - rewrite IHs, filter_cons.
    destruct (decide (writes DASHBOARD_USER DASHBOARD_PASS (now, ws, req) = true))
      as [Hw|Hw].
    + rewrite last_cons. destruct (last (filter _ history)); [done|].
      by apply serve_stamp.
    + apply not_true_is_false in Hw. by rewrite serve_idle.
  - rewrite IHt, serve_tokens. unfold posted_tokens. simpl. rewrite app_nil_r.
    rewrite last_app.
    fold (posted_tokens DASHBOARD_USER DASHBOARD_PASS history).
    by destruct (last (posted_tokens DASHBOARD_USER DASHBOARD_PASS history)).
Qed.

(** ** Indentation *)

Lemma lstrip_where_id p s :
  (forall c, head s = Some c -> p c = false) -> lstrip_where p s = s.
Proof.
  destruct s as [|c s]; [done|]. intros H. simpl. by rewrite (H c eq_refl).
Qed.

Lemma strip_idempotent s : strip (strip s) = strip s.
Proof.
  pose proof (strip_ends s) as Hends.
  set (t := strip s) in *. unfold strip, rstrip_where.
  rewrite (lstrip_where_id isspace t) by auto.
  rewrite (lstrip_where_id isspace (rev t)); [apply rev_involutive|].
  intros c Hc. rewrite head_rev_last in Hc. auto.
Qed.

(** X18. Indentation and trailing blanks never matter: both aggregators
    treat a line and the same line without its surrounding white space
    alike. *)
Theorem surrounding_space_ignored now file_date acc todos raw :
  scan_line now file_date acc (strip raw) = scan_line now file_date acc raw
  /\ scan_heartbeat_line todos (strip raw) = scan_heartbeat_line todos raw.
Proof.
  unfold scan_line, scan_heartbeat_line. by rewrite strip_idempotent.
Qed.

(** ** Each view follows its own posts *)

Lemma run_tokens_idle DASHBOARD_USER DASHBOARD_PASS isoformat strptime
    (order : SetOrder) history : forall data_file,
  posted_tokens DASHBOARD_USER DASHBOARD_PASS history = [] ->
  token_usage
    (load_data (run DASHBOARD_USER DASHBOARD_PASS isoformat strptime history data_file))
  = token_usage (load_data data_file).
Proof.
  induction history as [|[[now ws] req] history IH]; intros data_file E; [done|].
  simpl. unfold posted_tokens in E. simpl in E.
  apply app_eq_nil in E as [E1 E2]. rewrite IH by exact E2.
  rewrite (serve_tokens DASHBOARD_USER DASHBOARD_PASS isoformat strptime).
  unfold posted_tokens. simpl. rewrite app_nil_r, E1. done.
Qed.

(** X19. A view changes only through the posts of its own kind: after any
    sequence of requests without an authorized todo post [get_todos]
    returns what it returned before, without an authorized achievement
    post so does [get_achievements], and without an authorized token
    update so does [get_token_usage]. *)
Theorem views_follow_their_posts DASHBOARD_USER DASHBOARD_PASS isoformat strptime
    (order : SetOrder) history now ws data_file :
  let after := run DASHBOARD_USER DASHBOARD_PASS isoformat strptime history data_file in
  (posted_todos DASHBOARD_USER DASHBOARD_PASS history = [] ->
     get_todos ws after = get_todos ws data_file)
  /\ (posted_24h DASHBOARD_USER DASHBOARD_PASS history = [] ->
      posted_week DASHBOARD_USER DASHBOARD_PASS history = [] ->
      get_achievements strptime now ws after = get_achievements strptime now ws data_file)
  /\ (posted_tokens DASHBOARD_USER DASHBOARD_PASS history = [] ->
      get_token_usage ws after = get_token_usage ws data_file).
Proof.
  intros after.
  destruct (run_stored DASHBOARD_USER DASHBOARD_PASS isoformat strptime history data_file)
    as (T & D & W). fold after in T, D, W.
  split; [|split].
  - intros E. rewrite E, app_nil_r in T.
    unfold get_todos, merge_todos. by rewrite T.
  - intros E1 E2. rewrite E1, app_nil_r in D. rewrite E2, app_nil_r in W.
    unfold get_achievements. rewrite !collect_achievements_eq. simpl. by rewrite D, W.
  - intros E. unfold get_token_usage, after.
    by rewrite (run_tokens_idle DASHBOARD_USER DASHBOARD_PASS isoformat strptime order
                  history data_file E).
Qed.

Lemma views_follow_their_posts_witness :
  posted_24h Sample.DEFAULT_USER Sample.DEFAULT_PASS Sample.history = []
  /\ posted_week Sample.DEFAULT_USER Sample.DEFAULT_PASS Sample.history = []
  /\ get_achievements Calendar.strptime Sample.now Sample.ws_notes
       (run Sample.DEFAULT_USER Sample.DEFAULT_PASS Calendar.isoformat
          Calendar.strptime Sample.history Sample.week_only)
     = get_achievements Calendar.strptime Sample.now Sample.ws_notes Sample.week_only.
Proof.
  assert (E1 : posted_24h Sample.DEFAULT_USER Sample.DEFAULT_PASS Sample.history = [])
    by reflexivity.
  assert (E2 : posted_week Sample.DEFAULT_USER Sample.DEFAULT_PASS Sample.history = [])
    by reflexivity.
  split; [exact E1|]. split; [exact E2|].
  exact (proj1 (proj2 (views_follow_their_posts Sample.DEFAULT_USER Sample.DEFAULT_PASS
                         Calendar.isoformat Calendar.strptime last_seen_order
                         Sample.history Sample.now Sample.ws_notes Sample.week_only))
           E1 E2).
Defined.

(** ** The name of a note *)

Lemma rfind_app c s t :
  rfind c (s ++ t)
  = match rfind c t with
    | Some i => Some (length s + i)%nat
    | None => rfind c s
    end.
Proof.
  induction s as [|x s IH]; simpl.
  - by destruct (rfind c t).
  - rewrite IH. by destruct (rfind c t).
Qed.

(** X20. A file named [D.md], with [D] not empty, is picked by the glob
    and dated by [D]: its stem, the text handed to [strptime], is the
    name without the suffix, whatever dots [D] holds. *)
Theorem note_dated_by_name strptime now acc (d : str) (f : file) :
  d <> [] ->
  endswith (d ++ lit ".md") (lit ".md") = true
  /\ stem (d ++ lit ".md") = d
  /\ scan_note strptime now acc {| note_name := d ++ lit ".md"; note_file := f |}
     = match strptime d, read_text f with
       | Some file_date, Some content =>
           fold_left (scan_line now file_date) (split NEWLINE content) acc
       | _, _ => acc
       end.
Proof.
  intros Hd.
  assert (Hstem : stem (d ++ lit ".md") = d).
  { unfold stem. rewrite rfind_app. simpl.
    assert (H1 : (0 <? length d + 0)%nat = true).
    { apply Nat.ltb_lt. destruct d; simpl; [done|lia]. }
    assert (H2 : (length d + 0 <? length (d ++ lit ".md") - 1)%nat = true).
    { apply Nat.ltb_lt. rewrite length_app. simpl. lia. }
    rewrite H1, H2. simpl. rewrite Nat.add_0_r. apply take_app_length. }
  split; [|split; [exact Hstem|]].
  - unfold endswith. rewrite rev_app_distr. apply startswith_app.
  - unfold scan_note. simpl. rewrite Hstem.
    destruct (strptime d); [|done]. by destruct (read_text f).
Qed.

Lemma note_dated_by_name_witness :
  lit "2026-02-02" <> []
  /\ stem (lit "2026-02-02" ++ lit ".md") = lit "2026-02-02".
Proof.
  assert (H : lit "2026-02-02" <> []) by discriminate.
  split; [exact H|].
  exact (proj1 (proj2 (note_dated_by_name Calendar.strptime Sample.now ([], [])
                         (lit "2026-02-02") Missing H))).
Defined.
